(** * CoalSampleAnalyzer: risk indices, risk scoring and the thermal pipeline

    A shallow embedding of [app.py] ([CoalSpontaneousAnalyzer] and the
    combiner of [analyze_thermal_image]) and of [thermal_simulator.py]
    ([assess_thermal_risk], [generate_coal_properties_from_image] and the
    temperature mapping of [simulate_thermal_distribution]).

    Numbers are modelled as the program has them:
    - a Python [float] is an IEEE-754 binary64 value, here Rocq's primitive
      [float]; decimal literals denote the nearest binary64 value in both
      languages;
    - a Python [int] is a [Z];
    - [None] is [None]; an exception caught by a [try/except] that returns
      [None] is [None] as well.

    The simulated fields are [np.float32] arrays: [Module Single] has them
    in IEEE-754 binary32. [Module Exact] reads floats as the rationals they
    hold: the normalized coal properties add up to 100 only up to rounding,
    and its account of the simulation applies the roundings of the program
    as functions on the rationals. *)

From Stdlib Require Import ZArith QArith Qabs Lqa Lia List String Bool.
From Stdlib Require Import Floats.
From Stdlib Require Ascii DecimalString.
Import ListNotations.

(* Decimal literals such as 0.3 are rounded to the nearest binary64 value,
   exactly as Python reads them. *)
Set Warnings "-inexact-float".

(** ** Python's float operations on binary64 *)

Module PyFloat.

Local Open Scope float_scope.

(** [bool(x)] for a float: false exactly for [0.0] and [-0.0]; NaN is true. *)
Definition truthy (x : float) : bool := negb (x =? 0).

(** [if v:] where [v] is [None] or a float. *)
Definition truthy_opt (v : option float) : bool :=
  match v with
  | None => false
  | Some x => truthy x
  end.

(** [x / y]: raises [ZeroDivisionError] (here [None]) when [y == 0]. *)
Definition div (x y : float) : option float :=
  if y =? 0 then None else Some (x / y).

(** The builtin [min(a, b)]: the later argument wins only when it is
    strictly smaller. *)
Definition min (a b : float) : float := if b <? a then b else a.

(** The builtin [max(a, b)]: the later argument wins only when it is
    strictly greater. *)
Definition max (a b : float) : float := if a <? b then b else a.

(** The exact rational value of a finite float. *)
Definition SF2Q (f : spec_float) : option Q :=
  match f with
  | S754_zero _ => Some 0%Q
  | S754_finite s m e => Some (inject_Z (cond_Zopp s (Zpos m)) * Qpower 2 e)%Q
  | S754_infinity _ | S754_nan => None
  end.

Definition to_Q (x : float) : option Q := SF2Q (Prim2SF x).

(** Nearest integer, ties to even. *)
Definition Qround_half_even (q : Q) : Z :=
  let n := Qnum q in
  let d := Zpos (Qden q) in
  let fl := (n / d)%Z in
  match (2 * (n mod d) ?= d)%Z with
  | Lt => fl
  | Gt => (fl + 1)%Z
  | Eq => if Z.even fl then fl else (fl + 1)%Z
  end.

(** [floor (log2 q)] for a positive rational. *)
Definition Qlog2 (q : Q) : Z :=
  let k := (Z.log2 (Qnum q) - Z.log2 (Zpos (Qden q)))%Z in
  if Qle_bool (Qpower 2 k) q then k else (k - 1)%Z.

(** The binary64 value nearest to a non-negative rational (ties to even),
    as [strtod] and int true division compute it; infinite on overflow. *)
Definition of_Q_nonneg (q : Q) : float :=
  if Qle_bool q 0 then 0
  else
    let e := Z.max (Qlog2 q - 52) (-1074) in
    let m := Qround_half_even (q * Qpower 2 (- e)) in
    Z.ldexp (of_uint63 (Uint63.of_Z m)) e.

(** The binary64 value nearest to a rational; [None] stands for the
    [OverflowError] Python raises when the result is not finite. *)
Definition of_Q (q : Q) : option float :=
  let r := of_Q_nonneg (Qabs q) in
  if is_infinity r then None
  else Some (if Qle_bool 0 q then r else - r).

(** [round(x, ndigits)] for a float and [0 <= ndigits <= 323]: NaN and the
    infinities round to themselves; a finite [x] is rounded, from its exact
    value and with ties to even, to [ndigits] decimals, and the decimal
    result is read back as the nearest float with the sign of [x]. *)
Definition round (x : float) (ndigits : nat) : option float :=
  match Prim2SF x with
  | S754_finite s m e =>
      let scale := inject_Z (10 ^ Z.of_nat ndigits) in
      let q := (inject_Z (Zpos m) * Qpower 2 e)%Q in
      let n := Qround_half_even (q * scale) in
      let r := of_Q_nonneg (inject_Z n / scale) in
      if is_infinity r then None else Some (if s then - r else r)
  | _ => Some x
  end.

(** [a / b] for two ints: the correctly rounded quotient. *)
Definition int_truediv (a b : Z) : option float :=
  if (b =? 0)%Z then None else of_Q (inject_Z a / inject_Z b).

(** [r == x] where [r] is [None] or a float: false on [None]. *)
Definition returns (r : option float) (x : float) : bool :=
  match r with
  | Some y => y =? x
  | None => false
  end.

End PyFloat.

(** ** app.py: CoalSpontaneousAnalyzer *)

(** The risk-factor messages. The chemical scorer appends fixed strings;
    the thermal scorer appends f-strings that embed a number, which is
    carried here as the constructor's argument. *)
Inductive risk_factor :=
  | Very_High_CPT_Risk              (* "Very High CPT Risk (CPT < 140°C)" *)
  | High_CPT_Risk                   (* "High CPT Risk (CPT 140-150°C)" *)
  | Moderate_CPT_Risk               (* "Moderate CPT Risk (CPT 150-160°C)" *)
  | Low_CPT_Risk                    (* "Low CPT Risk (CPT > 160°C)" *)
  | High_Liability_Index_Risk       (* "High Liability Index Risk (LI > 2.0)" *)
  | Moderate_Liability_Index_Risk   (* "Moderate Liability Index Risk (LI 1.0-2.0)" *)
  | Low_Liability_Index_Risk        (* "Low Liability Index Risk (LI < 1.0)" *)
  | High_WITS_Index_Risk            (* "High WITS Index Risk (WITS > 5.0)" *)
  | Moderate_WITS_Index_Risk        (* "Moderate WITS Index Risk (WITS 2.0-5.0)" *)
  | Low_WITS_Index_Risk             (* "Low WITS Index Risk (WITS < 2.0)" *)
  | High_Ambient_Temperature_Risk   (* "High Ambient Temperature Risk (> 30°C)" *)
  | Poor_Ventilation_Risk           (* "Poor Ventilation Risk (< 0.5 m/s)" *)
  | Critical_hot_spots (max_temp : float)
  | Dangerous_temperatures (max_temp : float)
  | Elevated_temperatures (max_temp : float)
  | High_average_temperature (avg_temp : float)
  | Large_critical_zone (critical_percentage : float)
  | Moderate_critical_zone (critical_percentage : float)
  | Multiple_hot_spots (hot_spots : Z)
  | Several_hot_spots (hot_spots : Z).

(** [overall_risk] and its display colour. *)
Inductive risk_level := CRITICAL | HIGH | MODERATE | LOW.
Inductive color_tag := danger | warning | info | success.

(** The two accumulators every scorer threads through its branches:
    the factor list and the running score. *)
Definition tally : Type := list risk_factor * Z.

(** [risk_factors.append(f); risk_score += points] *)
Definition flag (f : risk_factor) (points : Z) (st : tally) : tally :=
  (fst st ++ [f], (snd st + points)%Z).

Module Analyzer.

Local Open Scope float_scope.

Definition bind {A B : Type} (m : option A) (k : A -> option B) : option B :=
  match m with
  | Some a => k a
  | None => None
  end.

Local Notation "x <- m ;; k" := (bind m (fun x => k))
  (at level 61, m at next level, right associativity).
Local Notation "' p <- m ;; k" := (bind m (fun x => match x with p => k end))
  (at level 61, p pattern, m at next level, right associativity).

(** [crossing_point_temperature], lines 50-74. The only operation of the
    body that can raise is the division. *)
Definition crossing_point_temperature
    (moisture volatile_matter ash fixed_carbon : float) : option float :=
  let total := moisture + volatile_matter + ash + fixed_carbon in
  '(moisture, volatile_matter, ash, fixed_carbon) <-
    (if 100 <? total then
       m <- PyFloat.div moisture total ;;
       v <- PyFloat.div volatile_matter total ;;
       a <- PyFloat.div ash total ;;
       f <- PyFloat.div fixed_carbon total ;;
       Some (m * 100, v * 100, a * 100, f * 100)
     else Some (moisture, volatile_matter, ash, fixed_carbon)) ;;
  let cpt := 150 + (0.3 * ash) - (0.5 * volatile_matter)
             + (0.2 * moisture) + (0.1 * fixed_carbon) in
  Some (PyFloat.max 120 (PyFloat.min 200 cpt)).

(** [liability_index], lines 76-91. *)
Definition liability_index (moisture volatile_matter ash : float) : option float :=
  if ash =? 0 then None
  else
    li <- PyFloat.div (moisture * volatile_matter) ash ;;
    PyFloat.round li 2.

(** [wits_index], lines 93-105. *)
Definition wits_index (moisture volatile_matter ash oxygen : float) : option float :=
  wits <- PyFloat.div ((moisture + volatile_matter) * oxygen) (ash + 1) ;;
  PyFloat.round wits 2.

(** [olpinski_index], lines 107-119. *)
Definition olpinski_index (moisture volatile_matter ash : float) : option float :=
  if (ash + volatile_matter) =? 0 then None
  else
    oi <- PyFloat.div moisture (ash + volatile_matter) ;;
    PyFloat.round oi 3.

Record assessment := {
  overall_risk : risk_level;
  risk_score : Z;
  risk_factors : list risk_factor;
  color : color_tag
}.

(** [if v: ...] around a block that reads the index [v]. *)
Definition if_truthy (v : option float) (block : float -> tally -> tally)
    (st : tally) : tally :=
  match v with
  | Some x => if PyFloat.truthy x then block x st else st
  | None => st
  end.

(** [risk_assessment], lines 125-174: the two accumulators after the five
    checks. *)
Definition chemical_tally (cpt li wits : option float)
    (ambient_temp ventilation_rate : float) : tally :=
  let st : tally := ([], 0%Z) in
  let st := if_truthy cpt (fun cpt st =>
      if cpt <? 140 then flag Very_High_CPT_Risk 40 st
      else if cpt <? 150 then flag High_CPT_Risk 30 st
      else if cpt <? 160 then flag Moderate_CPT_Risk 20 st
      else flag Low_CPT_Risk 10 st) st in
  let st := if_truthy li (fun li st =>
      if 2.0 <? li then flag High_Liability_Index_Risk 25 st
      else if 1.0 <? li then flag Moderate_Liability_Index_Risk 15 st
      else flag Low_Liability_Index_Risk 5 st) st in
  let st := if_truthy wits (fun wits st =>
      if 5.0 <? wits then flag High_WITS_Index_Risk 20 st
      else if 2.0 <? wits then flag Moderate_WITS_Index_Risk 10 st
      else flag Low_WITS_Index_Risk 5 st) st in
  let st := if 30 <? ambient_temp
            then flag High_Ambient_Temperature_Risk 15 st else st in
  let st := if ventilation_rate <? 0.5
            then flag Poor_Ventilation_Risk 15 st else st in
  st.

(** [risk_assessment], lines 121-195. [oi] is accepted and never read. *)
Definition risk_assessment (cpt li wits oi : option float)
    (ambient_temp ventilation_rate : float) : assessment :=
  let st := chemical_tally cpt li wits ambient_temp ventilation_rate in
  let risk_score := snd st in
  let '(overall_risk, color) :=
    if (80 <=? risk_score)%Z then (CRITICAL, danger)
    else if (60 <=? risk_score)%Z then (HIGH, warning)
    else if (40 <=? risk_score)%Z then (MODERATE, info)
    else (LOW, success) in
  {| overall_risk := overall_risk;
     risk_score := risk_score;
     risk_factors := fst st;
     color := color |}.

End Analyzer.

(** ** thermal_simulator.py: the thermal scorer *)

Module Thermal.

Local Open Scope float_scope.

Record temp_stats := {
  min_temp : float;
  max_temp : float;
  avg_temp : float;
  hot_spot_count : Z;
  critical_area_percentage : float
}.

Record thermal_risk := {
  thermal_risk_score : Z;
  thermal_risk_factors : list risk_factor;
  temperature_statistics : temp_stats
}.

(** [assess_thermal_risk], lines 357-394: the two accumulators after the
    four checks. *)
Definition thermal_tally (temp_stats : temp_stats) : tally :=
  let st : tally := ([], 0%Z) in
  let max_temp := temp_stats.(max_temp) in
  let st :=
    if 120 <? max_temp then flag (Critical_hot_spots max_temp) 40 st
    else if 80 <? max_temp then flag (Dangerous_temperatures max_temp) 30 st
    else if 50 <? max_temp then flag (Elevated_temperatures max_temp) 20 st
    else st in
  let avg_temp := temp_stats.(avg_temp) in
  let st :=
    if 45 <? avg_temp then flag (High_average_temperature avg_temp) 15 st
    else st in
  let critical_percentage := temp_stats.(critical_area_percentage) in
  let st :=
    if 20 <? critical_percentage
    then flag (Large_critical_zone critical_percentage) 20 st
    else if 10 <? critical_percentage
    then flag (Moderate_critical_zone critical_percentage) 10 st
    else st in
  let hot_spots := temp_stats.(hot_spot_count) in
  let st :=
    if (10 <? hot_spots)%Z then flag (Multiple_hot_spots hot_spots) 15 st
    else if (5 <? hot_spots)%Z then flag (Several_hot_spots hot_spots) 8 st
    else st in
  st.

(** [assess_thermal_risk], lines 353-400. The temperature map is accepted
    and never read. *)
Definition assess_thermal_risk {map : Type} (temperature_map : map)
    (temp_stats : temp_stats) : thermal_risk :=
  let st := thermal_tally temp_stats in
  {| thermal_risk_score := Z.min (snd st) 100;
     thermal_risk_factors := fst st;
     temperature_statistics := temp_stats |}.

End Thermal.

(** ** app.py: the combiner of analyze_thermal_image *)

Module Combined.

Local Open Scope float_scope.

Record combined_risk_assessment := {
  overall_risk : risk_level;
  risk_score : float;
  risk_factors : list risk_factor;
  color : color_tag;
  standard_risk_score : Z;
  thermal_risk_score : Z
}.

(** Lines 473-498: the two scores are ints, so [/ 2] is int true division;
    the thresholds compare the resulting float with ints. [None] stands for
    an exception, which the route's handler turns into an error page. *)
Definition combine (standard_risk : Analyzer.assessment)
    (thermal_risk : Thermal.thermal_risk) : option combined_risk_assessment :=
  Analyzer.bind
    (PyFloat.int_truediv
       (Analyzer.risk_score standard_risk
        + Thermal.thermal_risk_score thermal_risk) 2)
    (fun combined_risk_score =>
  let all_risk_factors :=
    Analyzer.risk_factors standard_risk
    ++ Thermal.thermal_risk_factors thermal_risk in
  let '(overall_risk, color) :=
    if 80 <=? combined_risk_score then (CRITICAL, danger)
    else if 60 <=? combined_risk_score then (HIGH, warning)
    else if 40 <=? combined_risk_score then (MODERATE, info)
    else (LOW, success) in
  Some {| overall_risk := overall_risk;
          risk_score := combined_risk_score;
          risk_factors := all_risk_factors;
          color := color;
          standard_risk_score := Analyzer.risk_score standard_risk;
          thermal_risk_score := Thermal.thermal_risk_score thermal_risk |}).

End Combined.

(** ** thermal_simulator.py in exact arithmetic

    [generate_coal_properties_from_image] and the field mapping of
    [simulate_thermal_distribution], with every float read as the rational
    it holds. The draws of the [random] module are an explicit supply of
    samples; OpenCV's results are inputs. *)

Module Exact.

Local Open Scope Q_scope.

Definition Qltb (a b : Q) : bool :=
  match a ?= b with
  | Lt => true
  | _ => false
  end.

(** The builtins [min(a, b)] and [max(a, b)]. *)
Definition py_min (a b : Q) : Q := if Qltb b a then b else a.
Definition py_max (a b : Q) : Q := if Qltb a b then b else a.

Record image_features := {
  avg_brightness : Q;
  brightness_std : Q;
  texture_variance : Q;
  hue_mean : Q;
  saturation_mean : Q;
  value_mean : Q;
  edge_density : Q;
  avg_particle_size : Q;
  particle_count : Z
}.

Record env_params := {
  ambient_temperature : Q;
  relative_humidity : Q;
  wind_speed : Q;
  oxygen_content : Q;
  atmospheric_pressure : Q;
  pile_height : Q;
  storage_duration : Z
}.

Record coal_properties := {
  moisture : Q;
  volatile_matter : Q;
  ash : Q;
  fixed_carbon : Q
}.

(** *** The random module *)

(** The values [random.random()] returns from now on, in order. *)
Definition rng : Type := nat -> Q.

(** Every sample of [random.random()] lies in [0, 1). *)
Definition unit_samples (g : rng) : Prop := forall n, 0 <= g n /\ g n < 1.

Definition Rand (A : Type) : Type := rng -> A * rng.

Definition ret {A : Type} (a : A) : Rand A := fun g => (a, g).

Definition bind {A B : Type} (m : Rand A) (k : A -> Rand B) : Rand B :=
  fun g => let (a, g') := m g in k a g'.

Local Notation "x <- m ;; k" := (bind m (fun x => k))
  (at level 61, m at next level, right associativity).

Definition random : Rand Q := fun g => (g 0%nat, fun n => g (S n)).

(** [random.uniform(a, b)] is [a + (b - a) * random()]. *)
Definition uniform (a b : Q) : Rand Q :=
  r <- random ;; ret (a + (b - a) * r).

(** [if cond: block], where the block updates the properties. *)
Definition when (cond : bool) (block : coal_properties -> Rand coal_properties)
    (p : coal_properties) : Rand coal_properties :=
  if cond then block p else ret p.

(** *** generate_coal_properties_from_image *)

Definition add_moisture (d : Q) (p : coal_properties) : coal_properties :=
  {| moisture := moisture p + d; volatile_matter := volatile_matter p;
     ash := ash p; fixed_carbon := fixed_carbon p |}.

Definition add_volatile_matter (d : Q) (p : coal_properties) : coal_properties :=
  {| moisture := moisture p; volatile_matter := volatile_matter p + d;
     ash := ash p; fixed_carbon := fixed_carbon p |}.

Definition add_ash (d : Q) (p : coal_properties) : coal_properties :=
  {| moisture := moisture p; volatile_matter := volatile_matter p;
     ash := ash p + d; fixed_carbon := fixed_carbon p |}.

Definition add_fixed_carbon (d : Q) (p : coal_properties) : coal_properties :=
  {| moisture := moisture p; volatile_matter := volatile_matter p;
     ash := ash p; fixed_carbon := fixed_carbon p + d |}.

(** Lines 292-303: one draw per base range, in the dict's order. *)
Definition base_properties : Rand coal_properties :=
  m <- uniform 6.0 15.0 ;;
  v <- uniform 25.0 45.0 ;;
  a <- uniform 8.0 25.0 ;;
  f <- uniform 35.0 60.0 ;;
  ret {| moisture := m; volatile_matter := v; ash := a; fixed_carbon := f |}.

(** Lines 305-319: [if image_features:] and its three adjustments. *)
Definition adjust_for_features (image_features : option image_features)
    (p : coal_properties) : Rand coal_properties :=
  match image_features with
  | None => ret p
  | Some features =>
      p <- when (Qltb (avg_brightness features) 60) (fun p =>
             d <- uniform 2 8 ;;
             let p := add_fixed_carbon d p in
             d <- uniform 1 5 ;;
             ret (add_volatile_matter d p)) p ;;
      p <- when (Qltb 600 (texture_variance features)) (fun p =>
             d <- uniform 1 3 ;;
             let p := add_moisture d p in
             d <- uniform 0.5 2.0 ;;
             ret (add_ash d p)) p ;;
      when (Qltb (avg_particle_size features) 50) (fun p =>
             d <- uniform 2 6 ;;
             ret (add_volatile_matter d p)) p
  end.

(** Lines 321-327. *)
Definition adjust_for_environment (env : env_params)
    (p : coal_properties) : Rand coal_properties :=
  p <- when (Qltb 70 (relative_humidity env)) (fun p =>
         d <- uniform 1 4 ;;
         ret (add_moisture d p)) p ;;
  when (15 <? storage_duration env)%Z (fun p =>
         d <- uniform 0.5 2.0 ;;
         let p := add_moisture (- d) p in
         d <- uniform 0.2 1.0 ;;
         ret (add_ash d p)) p.

(** Lines 292-327: the properties as they stand before normalization. *)
Definition sample_properties (image_features : option image_features)
    (env : env_params) : Rand coal_properties :=
  p <- base_properties ;;
  p <- adjust_for_features image_features p ;;
  adjust_for_environment env p.

(** [sum(properties.values())] *)
Definition total (p : coal_properties) : Q :=
  0 + moisture p + volatile_matter p + ash p + fixed_carbon p.

(** Lines 329-334. *)
Definition normalize (p : coal_properties) : coal_properties :=
  if Qltb 0 (total p) then
    let factor := 100.0 / total p in
    {| moisture := moisture p * factor;
       volatile_matter := volatile_matter p * factor;
       ash := ash p * factor;
       fixed_carbon := fixed_carbon p * factor |}
  else p.

(** Lines 336-340. *)
Definition clamp (p : coal_properties) : coal_properties :=
  {| moisture := py_max 1.0 (py_min 20.0 (moisture p));
     volatile_matter := py_max 15.0 (py_min 50.0 (volatile_matter p));
     ash := py_max 5.0 (py_min 35.0 (ash p));
     fixed_carbon := py_max 25.0 (py_min 70.0 (fixed_carbon p)) |}.

(** The [try] body of [generate_coal_properties_from_image]; with every key
    present nothing in it raises, so the fallback dict is not reached. *)
Definition generate_coal_properties_from_image
    (image_features : option image_features) (env : env_params)
    : Rand coal_properties :=
  p <- sample_properties image_features env ;;
  ret (clamp (normalize p)).

(** *** simulate_thermal_distribution *)

(** The roundings of the program: [single] takes a real number to the
    [np.float32] value the code stores for it, [double] to the Python
    float. The simulation below applies them wherever the code rounds. *)
Record rounding := {
  single : Q -> Q;
  double : Q -> Q
}.

(** IEEE-754's round to nearest, ties to even, on [prec] bits with
    exponents from [emin], for a real within the format's range. *)
Definition nearest (prec emin : Z) (q : Q) : Q :=
  if Qeq_bool q 0 then 0
  else
    let a := Qabs q in
    let e := Z.max (PyFloat.Qlog2 a - (prec - 1)) emin in
    let m := PyFloat.Qround_half_even (a * Qpower 2 (- e)) in
    let v := Qred (inject_Z m * Qpower 2 e) in
    if Qle_bool 0 q then v else - v.

(** binary32 and binary64. *)
Definition ieee : rounding :=
  {| single := nearest 24 (-149); double := nearest 53 (-1074) |}.

(** A 2-D array, row by row. *)
Definition array : Type := list (list Q).

Definition array_map (f : Q -> Q) (a : array) : array := map (map f) a.

(** An elementwise operation on two arrays of one shape. *)
Definition array_map2 (f : Q -> Q -> Q) (a b : array) : array :=
  map (fun rows => map (fun xy => f (fst xy) (snd xy))
                       (combine (fst rows) (snd rows)))
      (combine a b).

(** [np.clip] on one element: [min(max(x, lo), hi)] as NumPy's loop has it. *)
Definition np_clip (lo hi x : Q) : Q :=
  let y := if Qltb lo x then x else lo in
  if Qltb y hi then y else hi.

(** Lines 203-223. [stages] is what lines 170-201 hand over: the blurred
    base map [heat_diffusion] and the blurred [hot_spots] array of the same
    shape, or [None] when one of those lines raises (the image cannot be
    read, or it is narrower than 40 pixels and [random.randint] gets an
    empty range); the handler then returns [(None, None)]. The arrays are
    [np.float32] arrays and the environment holds Python floats: a scalar
    that meets an array is cast to single precision, an operation on
    arrays rounds to single precision, one on scalars to double. *)
Definition simulate_thermal_distribution (r : rounding)
    (stages : option (array * array)) (env_params : env_params)
    : option array * option array :=
  let f32 := single r in
  let f64 := double r in
  match stages with
  | None => (None, None)
  | Some (heat_diffusion, hot_spots) =>
      let thermal_map :=
        array_map (np_clip 0 1)
          (array_map2 (fun h s => f32 (h + s)) heat_diffusion
             (array_map (fun h => f32 (h * f32 (f64 0.4))) hot_spots)) in
      let base_temp := ambient_temperature env_params in
      let max_temp_increase := 150 in
      let humidity_factor :=
        f64 (1.0 + f64 (f64 (relative_humidity env_params - 50) / 200)) in
      let wind_factor :=
        py_max 0.5 (f64 (1.0 - f64 (wind_speed env_params / 5.0))) in
      let pile_factor :=
        f64 (1.0 + f64 (f64 (pile_height env_params - 3.0) / 10.0)) in
      let duration_factor :=
        f64 (1.0 + f64 (f64 (inject_Z (storage_duration env_params - 1))
                        / 50.0)) in
      let temp_multiplier :=
        f64 (f64 (f64 (humidity_factor * wind_factor) * pile_factor)
             * duration_factor) in
      let temperature_map :=
        array_map (fun t =>
                     f32 (f32 base_temp
                          + f32 (f32 (t * f32 max_temp_increase)
                                 * f32 temp_multiplier)))
          thermal_map in
      let temperature_map :=
        array_map (np_clip (f32 base_temp) (f32 (f64 (base_temp + 180))))
          temperature_map in
      (Some thermal_map, Some temperature_map)
  end.

End Exact.

(** ** thermal_simulator.py: the simulated fields in single precision

    Line 179 makes the image a [np.float32] array, and every array derived
    from it keeps that dtype: a Python scalar that meets such an array is
    cast to [np.float32] first, and each elementwise operation rounds its
    exact result to the nearest binary32 value. A binary32 value is carried
    here by the binary64 [float] of the same value; the operations are the
    IEEE-754 ones of [SpecFloat] at 24 bits of precision. *)

Module Single.

Local Open Scope float_scope.

Definition prec : Z := 24.
Definition emax : Z := 128.

(** The cast of a Python float to [np.float32]: the nearest binary32 value,
    ties to even, an infinity beyond the range. *)
Definition of_float (x : float) : float :=
  match Prim2SF x with
  | S754_finite s m e =>
      SF2Prim (binary_normalize prec emax (cond_Zopp s (Zpos m)) e s)
  | _ => x
  end.

(** [a + b] and [a * b] on [np.float32]. *)
Definition add (a b : float) : float :=
  SF2Prim (SFadd prec emax (Prim2SF a) (Prim2SF b)).

Definition mul (a b : float) : float :=
  SF2Prim (SFmul prec emax (Prim2SF a) (Prim2SF b)).


Record env_params := {
  ambient_temperature : float;
  relative_humidity : float;
  wind_speed : float;
  oxygen_content : float;
  atmospheric_pressure : float;
  pile_height : float;
  storage_duration : Z
}.

(** A 2-D [np.float32] array, row by row. *)
Definition array : Type := list (list float).

Definition array_map (f : float -> float) (a : array) : array :=
  map (map f) a.

(** An elementwise operation on two arrays of one shape. *)
Definition array_map2 (f : float -> float -> float) (a b : array) : array :=
  map (fun rows => map (fun xy => f (fst xy) (snd xy))
                       (combine (fst rows) (snd rows)))
      (combine a b).

(** [np.clip] on one element, as NumPy's loop has it: [max(x, lo)] and then
    [min(., hi)], each keeping a NaN first argument and otherwise taking the
    second argument unless the first is strictly beyond it. *)
Definition np_clip (lo hi x : float) : float :=
  let y := if is_nan x then x else if lo <? x then x else lo in
  if is_nan y then y else if y <? hi then y else hi.

(** Lines 211-218: the factor that scales the heat intensity, in Python
    floats. [storage_duration] is an int, which the division by [50.0]
    converts to a float; [None] stands for the [OverflowError] of that
    conversion. *)
Definition temp_multiplier (env_params : env_params) : option float :=
  let humidity_factor := 1.0 + (relative_humidity env_params - 50) / 200 in
  let wind_factor := PyFloat.max 0.5 (1.0 - wind_speed env_params / 5.0) in
  let pile_factor := 1.0 + (pile_height env_params - 3.0) / 10.0 in
  match PyFloat.of_Q (inject_Z (storage_duration env_params - 1)) with
  | None => None
  | Some days =>
      let duration_factor := 1.0 + days / 50.0 in
      Some (humidity_factor * wind_factor * pile_factor * duration_factor)
  end.

(** Line 204: a cell of the thermal map. *)
Definition thermal_cell (heat_diffusion hot_spots : float) : float :=
  np_clip 0 1 (add heat_diffusion (mul hot_spots (of_float 0.4))).

(** Lines 207-221: the temperature of a cell of heat intensity [t]. *)
Definition cell_temperature (base_temp temp_multiplier t : float) : float :=
  let max_temp_increase := 150 in
  let temperature :=
    add (of_float base_temp)
        (mul (mul t (of_float max_temp_increase)) (of_float temp_multiplier)) in
  np_clip (of_float base_temp) (of_float (base_temp + 180)) temperature.

(** Lines 203-223. [stages] is what lines 170-201 hand over: the blurred
    base map [heat_diffusion] and the blurred [hot_spots] array of the same
    shape, or [None] when one of those lines raises (the image cannot be
    read, or it is narrower than 40 pixels and [random.randint] gets an
    empty range); the handler then returns [(None, None)]. *)
Definition simulate_thermal_distribution (stages : option (array * array))
    (env_params : env_params) : option array * option array :=
  match stages with
  | None => (None, None)
  | Some (heat_diffusion, hot_spots) =>
      let thermal_map := array_map2 thermal_cell heat_diffusion hot_spots in
      let base_temp := ambient_temperature env_params in
      match temp_multiplier env_params with
      | None => (None, None)
      | Some temp_multiplier =>
          let temperature_map :=
            array_map (cell_temperature base_temp temp_multiplier)
              thermal_map in
          (Some thermal_map, Some temperature_map)
      end
  end.


End Single.

(** ** The specification's reading of the scorers and of the CPT

    These definitions follow the words of the specification, not the code;
    the theorems below compare them with the code. *)

Module Stated.

Local Open Scope float_scope.

(** CPT band: <140 / 140-150 / 150-160 / >=160 give 40/30/20/10. *)
Definition cpt_points (cpt : float) : Z :=
  if cpt <? 140 then 40
  else if cpt <? 150 then 30
  else if cpt <? 160 then 20
  else 10.

(** Liability Index band: >2.0 / 1.0-2.0 / <=1.0 give 25/15/5. *)
Definition li_points (li : float) : Z :=
  if 2.0 <? li then 25 else if 1.0 <? li then 15 else 5.

(** WITS band: >5.0 / 2.0-5.0 / <=2.0 give 20/10/5. *)
Definition wits_points (wits : float) : Z :=
  if 5.0 <? wits then 20 else if 2.0 <? wits then 10 else 5.

(** An absent index contributes 0, a present one its band. *)
Definition present (points : float -> Z) (v : option float) : Z :=
  match v with
  | Some x => points x
  | None => 0
  end.

Definition environment_points (ambient_temp ventilation_rate : float) : Z :=
  (if 30 <? ambient_temp then 15 else 0)
  + (if ventilation_rate <? 0.5 then 15 else 0).

(** The chemical risk score as the sum of the banded contributions. *)
Definition chemical_score (cpt li wits : option float)
    (ambient_temp ventilation_rate : float) : Z :=
  present cpt_points cpt + present li_points li + present wits_points wits
  + environment_points ambient_temp ventilation_rate.

(** Thermal bands: max temperature >120/>80/>50 gives 40/30/20; average
    temperature >45 gives 15; critical area >20/>10 gives 20/10; hot-spot
    count >10/>5 gives 15/8. *)
Definition max_temp_points (t : float) : Z :=
  if 120 <? t then 40 else if 80 <? t then 30 else if 50 <? t then 20 else 0.

Definition avg_temp_points (t : float) : Z := if 45 <? t then 15 else 0.

Definition critical_area_points (pct : float) : Z :=
  if 20 <? pct then 20 else if 10 <? pct then 10 else 0.

Definition hot_spot_points (n : Z) : Z :=
  if (10 <? n)%Z then 15 else if (5 <? n)%Z then 8 else 0.

Definition thermal_band_sum (s : Thermal.temp_stats) : Z :=
  max_temp_points (Thermal.max_temp s)
  + avg_temp_points (Thermal.avg_temp s)
  + critical_area_points (Thermal.critical_area_percentage s)
  + hot_spot_points (Thermal.hot_spot_count s).

(** The category bands, on an exact score. *)
Definition category (s : Q) : risk_level * color_tag :=
  if Qle_bool 80 s then (CRITICAL, danger)
  else if Qle_bool 60 s then (HIGH, warning)
  else if Qle_bool 40 s then (MODERATE, info)
  else (LOW, success).

(** The same bands, interval by interval. *)
Definition banded (s : Q) (c : risk_level * color_tag) : Prop :=
  ((80 <= s)%Q -> c = (CRITICAL, danger))
  /\ ((60 <= s)%Q /\ (s < 80)%Q -> c = (HIGH, warning))
  /\ ((40 <= s)%Q /\ (s < 60)%Q -> c = (MODERATE, info))
  /\ ((s < 40)%Q -> c = (LOW, success)).

(** An input rescaled so that the four add up to 100. *)
Definition rescaled (x total : float) : float := x / total * 100.

Definition cpt_formula (moisture volatile_matter ash fixed_carbon : float) : float :=
  150 + 0.3 * ash - 0.5 * volatile_matter + 0.2 * moisture + 0.1 * fixed_carbon.

(** [max(120, min(200, formula))] on the rescaled inputs when the raw ones
    exceed 100 in total, and on the raw inputs otherwise. *)
Definition cpt (moisture volatile_matter ash fixed_carbon : float) : float :=
  let total := moisture + volatile_matter + ash + fixed_carbon in
  let raw :=
    if 100 <? total
    then cpt_formula (rescaled moisture total) (rescaled volatile_matter total)
                     (rescaled ash total) (rescaled fixed_carbon total)
    else cpt_formula moisture volatile_matter ash fixed_carbon in
  PyFloat.max 120 (PyFloat.min 200 raw).

(** What [if v:] makes of an index: a zero is treated like [None]. *)
Definition drop_zero (v : option float) : option float :=
  if PyFloat.truthy_opt v then v else None.

End Stated.

(** ** Decision procedures used by the proofs *)

Module Checks.

Local Open Scope float_scope.

Definition category_eqb (a b : risk_level * color_tag) : bool :=
  match a, b with
  | (CRITICAL, danger), (CRITICAL, danger)
  | (HIGH, warning), (HIGH, warning)
  | (MODERATE, info), (MODERATE, info)
  | (LOW, success), (LOW, success) => true
  | _, _ => false
  end.

(** For a sum [s] of two int scores: [s / 2] is computed without error, is
    the float whose exact value is s/2, and the float thresholds of the
    combiner pick the category of s/2. *)
Definition halves_exactly (s : Z) : bool :=
  match PyFloat.int_truediv s 2 with
  | None => false
  | Some x =>
      match PyFloat.to_Q x with
      | None => false
      | Some q =>
          Qeq_bool q (inject_Z s / 2)
          && category_eqb
               (if 80 <=? x then (CRITICAL, danger)
                else if 60 <=? x then (HIGH, warning)
                else if 40 <=? x then (MODERATE, info)
                else (LOW, success))
               (Stated.category (inject_Z s / 2))
      end
  end.


End Checks.

(** ** Concrete inputs used by the examples *)

Module Samples.

Import Exact.
Local Open Scope Q_scope.

(** A dark, fine-grained sample. *)
Definition dark_fine : image_features :=
  {| avg_brightness := 50; brightness_std := 10; texture_variance := 100;
     hue_mean := 20; saturation_mean := 30; value_mean := 50;
     edge_density := 0.1; avg_particle_size := 10; particle_count := 20 |}.

(** A day inside the [normal] scenario. *)
Definition mild : env_params :=
  {| ambient_temperature := 25; relative_humidity := 50; wind_speed := 1;
     oxygen_content := 20.9; atmospheric_pressure := 100; pile_height := 3;
     storage_duration := 1 |}.

(** A generator that always returns 0. *)
Definition zeros : rng := fun _ => 0.

(** A generator whose draws for volatile matter (the second, sixth and
    seventh) are 0.99 and whose other draws are 0. *)
Definition volatile_heavy : rng :=
  fun n => match n with
           | 1%nat | 5%nat | 6%nat => 0.99
           | _ => 0
           end.

End Samples.

(** ** The order of binary64 values, through integer keys *)

Module FloatKey.

(** A key of three integers that orders the non-NaN floats as [<] does:
    the class (-2 for -inf, -1 for negative, 0 for both zeros, 1 for
    positive, 2 for +inf), then exponent and mantissa. NaN has no key. *)
Definition key (f : spec_float) : option (Z * Z * Z) :=
  match f with
  | S754_zero _ => Some (0, 0, 0)%Z
  | S754_infinity s => Some (if s then (-2) else 2, 0, 0)%Z
  | S754_nan => None
  | S754_finite s m e =>
      Some (if s then (-1, - e, - Zpos m) else (1, e, Zpos m))%Z
  end.

Definition fkey (x : float) : option (Z * Z * Z) := key (Prim2SF x).

Definition lex_ltb (a b : Z * Z * Z) : bool :=
  let '(r1, e1, m1) := a in
  let '(r2, e2, m2) := b in
  ((r1 <? r2) || ((r1 =? r2) && ((e1 <? e2) || ((e1 =? e2) && (m1 <? m2)))))%Z.

Definition lex_eqb (a b : Z * Z * Z) : bool :=
  let '(r1, e1, m1) := a in
  let '(r2, e2, m2) := b in
  ((r1 =? r2) && (e1 =? e2) && (m1 =? m2))%Z.

Definition on_keys (test : Z * Z * Z -> Z * Z * Z -> bool)
    (a b : option (Z * Z * Z)) : bool :=
  match a, b with
  | Some ka, Some kb => test ka kb
  | _, _ => false
  end.

End FloatKey.

(** ** The points each risk factor stands for *)

(** The increment that accompanies each [risk_factors.append] in the two
    scorers. *)
Definition factor_points (f : risk_factor) : Z :=
  match f with
  | Very_High_CPT_Risk => 40
  | High_CPT_Risk => 30
  | Moderate_CPT_Risk => 20
  | Low_CPT_Risk => 10
  | High_Liability_Index_Risk => 25
  | Moderate_Liability_Index_Risk => 15
  | Low_Liability_Index_Risk => 5
  | High_WITS_Index_Risk => 20
  | Moderate_WITS_Index_Risk => 10
  | Low_WITS_Index_Risk => 5
  | High_Ambient_Temperature_Risk => 15
  | Poor_Ventilation_Risk => 15
  | Critical_hot_spots _ => 40
  | Dangerous_temperatures _ => 30
  | Elevated_temperatures _ => 20
  | High_average_temperature _ => 15
  | Large_critical_zone _ => 20
  | Moderate_critical_zone _ => 10
  | Multiple_hot_spots _ => 15
  | Several_hot_spots _ => 8
  end.

Definition total_points (factors : list risk_factor) : Z :=
  fold_right Z.add 0%Z (map factor_points factors).

(** A tally whose score is the points of its factors, of which there are
    at most [n]. *)
Definition explained (n : nat) (st : tally) : Prop :=
  snd st = total_points (fst st) /\ (List.length (fst st) <= n)%nat.

(** ** app.py: the risk-factor texts and generate_recommendations *)

Module Advice.

Local Open Scope string_scope.

(** [str(n)] for an int. *)
Definition str_int (n : Z) : string :=
  DecimalString.NilZero.string_of_int (Z.to_int n).

(** [format(x, '.1f')]: the exact value of [x] rounded to one decimal with
    ties to even, behind the sign bit of [x]; [nan] and [inf] by name. *)
Definition format_1f (x : float) : string :=
  match Prim2SF x with
  | S754_nan => "nan"
  | S754_infinity s => if s then "-inf" else "inf"
  | S754_zero s => if s then "-0.0" else "0.0"
  | S754_finite s m e =>
      let n := PyFloat.Qround_half_even
                 (inject_Z (Zpos m) * Qpower 2 e * inject_Z 10) in
      (if s then "-" else "") ++ str_int (n / 10) ++ "." ++ str_int (n mod 10)
  end.

(** The text each scorer appends to its factor list. *)
Definition message (f : risk_factor) : string :=
  match f with
  | Very_High_CPT_Risk => "Very High CPT Risk (CPT < 140°C)"
  | High_CPT_Risk => "High CPT Risk (CPT 140-150°C)"
  | Moderate_CPT_Risk => "Moderate CPT Risk (CPT 150-160°C)"
  | Low_CPT_Risk => "Low CPT Risk (CPT > 160°C)"
  | High_Liability_Index_Risk => "High Liability Index Risk (LI > 2.0)"
  | Moderate_Liability_Index_Risk => "Moderate Liability Index Risk (LI 1.0-2.0)"
  | Low_Liability_Index_Risk => "Low Liability Index Risk (LI < 1.0)"
  | High_WITS_Index_Risk => "High WITS Index Risk (WITS > 5.0)"
  | Moderate_WITS_Index_Risk => "Moderate WITS Index Risk (WITS 2.0-5.0)"
  | Low_WITS_Index_Risk => "Low WITS Index Risk (WITS < 2.0)"
  | High_Ambient_Temperature_Risk => "High Ambient Temperature Risk (> 30°C)"
  | Poor_Ventilation_Risk => "Poor Ventilation Risk (< 0.5 m/s)"
  | Critical_hot_spots max_temp =>
      "Critical hot spots detected (" ++ (format_1f max_temp ++ "°C)")
  | Dangerous_temperatures max_temp =>
      "Dangerous temperatures observed (" ++ (format_1f max_temp ++ "°C)")
  | Elevated_temperatures max_temp =>
      "Elevated temperatures detected (" ++ (format_1f max_temp ++ "°C)")
  | High_average_temperature avg_temp =>
      "High average temperature (" ++ (format_1f avg_temp ++ "°C)")
  | Large_critical_zone critical_percentage =>
      "Large critical temperature zone ("
      ++ (format_1f critical_percentage ++ "%)")
  | Moderate_critical_zone critical_percentage =>
      "Moderate critical temperature zone ("
      ++ (format_1f critical_percentage ++ "%)")
  | Multiple_hot_spots hot_spots =>
      "Multiple hot spots detected (" ++ (str_int hot_spots ++ ")")
  | Several_hot_spots hot_spots =>
      "Several hot spots present (" ++ (str_int hot_spots ++ ")")
  end.

(** [repr] of one of these texts, followed by [rest]: none of them holds a
    quote, a backslash or an unprintable character, so [repr] only wraps
    the text in single quotes. *)
Definition repr_then (f : risk_factor) (rest : string) : string :=
  "'" ++ (message f ++ ("'" ++ rest)).

(** The items of [str(risk_factors)], separated by [", "], then [rest]. *)
Fixpoint items_then (factors : list risk_factor) (rest : string) : string :=
  match factors with
  | [] => rest
  | [f] => repr_then f rest
  | f :: more => repr_then f (", " ++ items_then more rest)
  end.

(** [str(risk_factors)] *)
Definition str_list (factors : list risk_factor) : string :=
  "[" ++ items_then factors "]".

Fixpoint starts_with (needle s : string) : bool :=
  match needle, s with
  | EmptyString, _ => true
  | String _ _, EmptyString => false
  | String a needle', String b s' => Ascii.eqb a b && starts_with needle' s'
  end.

(** [needle in s] for two strings. *)
Fixpoint contains (needle s : string) : bool :=
  starts_with needle s
  || match s with
     | EmptyString => false
     | String _ s' => contains needle s'
     end.

(** The recommendation texts of lines 204-234. *)
Definition urgent_advice : list string :=
  [ "Implement immediate monitoring systems for temperature and gas emissions";
    "Increase ventilation rates to minimum 1.0 m/s";
    "Consider water spraying or foam injection for temperature control";
    "Establish regular thermal imaging surveys";
    "Implement CO monitoring systems" ].

Definition routine_advice : list string :=
  [ "Regular inspection of coal stockpiles every 2-4 hours";
    "Maintain maximum pile height of 3-4 meters";
    "Ensure proper drainage to prevent moisture accumulation";
    "Consider coal blending to reduce volatile matter content" ].

Definition ventilation_advice : string :=
  "Install or upgrade ventilation systems immediately".

Definition cooling_advice : string :=
  "Implement cooling measures during hot weather".

Definition relocation_advice : string :=
  "Consider relocating coal to cooler storage areas".

Definition default_advice : list string :=
  [ "Continue regular monitoring procedures";
    "Maintain current storage practices";
    "Review conditions monthly" ].

(** The texts of lines 507-511. *)
Definition thermal_advice : list string :=
  [ "Implement continuous thermal monitoring with infrared cameras";
    "Establish thermal alert zones around detected hot spots";
    "Consider immediate pile restructuring to break up hot zones" ].

(** Lines 197-236. [risk_level] and [risk_factors] are what the callers
    pass: the category of a scorer and factor texts of the scorers. *)
Definition generate_recommendations (risk_level : risk_level)
    (risk_factors : list risk_factor) (cpt : option float) : list string :=
  let recommendations : list string := [] in
  let recommendations :=
    match risk_level with
    | CRITICAL | HIGH => (recommendations ++ urgent_advice)%list
    | _ => recommendations
    end in
  let recommendations :=
    match risk_level with
    | CRITICAL | HIGH | MODERATE => (recommendations ++ routine_advice)%list
    | _ => recommendations
    end in
  let recommendations :=
    if contains "Poor Ventilation" (str_list risk_factors)
    then (recommendations ++ [ventilation_advice])%list
    else recommendations in
  let recommendations :=
    if contains "High Ambient Temperature" (str_list risk_factors)
    then (recommendations ++ [cooling_advice])%list
    else recommendations in
  let recommendations :=
    match cpt with
    | Some c =>
        if PyFloat.truthy c && (c <? 145)%float
        then (recommendations ++ [relocation_advice])%list
        else recommendations
    | None => recommendations
    end in
  match recommendations with
  | [] => default_advice
  | _ => recommendations
  end.

Record analysis := {
  cpt : option float;
  liability_index : option float;
  wits_index : option float;
  olpinski_index : option float;
  risk_assessment : Analyzer.assessment;
  recommendations : list string
}.

(** The computation of [analyze] and [api_analyze] (lines 269-284 and
    336-349) on the seven numbers read from the request. *)
Definition api_analyze
    (moisture volatile_matter ash fixed_carbon oxygen
     ambient_temp ventilation_rate : float) : analysis :=
  let cpt := Analyzer.crossing_point_temperature
               moisture volatile_matter ash fixed_carbon in
  let li := Analyzer.liability_index moisture volatile_matter ash in
  let wits := Analyzer.wits_index moisture volatile_matter ash oxygen in
  let oi := Analyzer.olpinski_index moisture volatile_matter ash in
  let risk_assessment :=
    Analyzer.risk_assessment cpt li wits oi ambient_temp ventilation_rate in
  let recommendations :=
    generate_recommendations (Analyzer.overall_risk risk_assessment)
      (Analyzer.risk_factors risk_assessment) cpt in
  {| cpt := cpt; liability_index := li; wits_index := wits;
     olpinski_index := oi; risk_assessment := risk_assessment;
     recommendations := recommendations |}.

(** Lines 500-512 of [analyze_thermal_image]: the recommendations of the
    combined assessment, with the thermal ones appended when the thermal
    score exceeds 50. *)
Definition thermal_recommendations
    (combined : Combined.combined_risk_assessment)
    (thermal_risk : Thermal.thermal_risk) (cpt : option float) : list string :=
  let recommendations :=
    generate_recommendations (Combined.overall_risk combined)
      (Combined.risk_factors combined) cpt in
  if (50 <? Thermal.thermal_risk_score thermal_risk)%Z
  then (recommendations ++ thermal_advice)%list
  else recommendations.

End Advice.

(** ** Tests on factor texts used by the proofs *)

Module AdviceChecks.

(** No character of [s] is [c]. *)
Fixpoint avoids (c : Ascii.ascii) (s : string) : bool :=
  match s with
  | EmptyString => true
  | String a s' => negb (Ascii.eqb c a) && avoids c s'
  end.

Definition is_poor_ventilation (f : risk_factor) : bool :=
  match f with
  | Poor_Ventilation_Risk => true
  | _ => false
  end.

Definition is_high_ambient (f : risk_factor) : bool :=
  match f with
  | High_Ambient_Temperature_Risk => true
  | _ => false
  end.

Definition is_cpt_factor (f : risk_factor) : bool :=
  match f with
  | Very_High_CPT_Risk | High_CPT_Risk | Moderate_CPT_Risk | Low_CPT_Risk => true
  | _ => false
  end.

Definition is_max_temp_factor (f : risk_factor) : bool :=
  match f with
  | Critical_hot_spots _ | Dangerous_temperatures _
  | Elevated_temperatures _ => true
  | _ => false
  end.

(** [needle] and [s] differ at a position both have. *)
Fixpoint mismatch (needle s : string) : bool :=
  match needle, s with
  | String a needle', String b s' =>
      negb (Ascii.eqb a b) || mismatch needle' s'
  | _, _ => false
  end.

(** No occurrence of [needle] can start inside [s], whatever follows [s]. *)
Fixpoint clear_of (needle s : string) : bool :=
  match s with
  | EmptyString => true
  | String _ s' => mismatch needle s && clear_of needle s'
  end.

(** [if cpt and cpt < 145] *)
Definition relocation_due (cpt : option float) : bool :=
  match cpt with
  | Some c => PyFloat.truthy c && (c <? 145)%float
  | None => false
  end.

(** A tally whose factor list starts with [f]. *)
Definition headed (f : risk_factor) (st : tally) : Prop :=
  exists more, fst st = f :: more.

(** Equality of two lists of strings, decided. *)
Definition same_list (a b : list string) : bool :=
  if list_eq_dec string_dec a b then true else false.

(** [advice in recommendations] *)
Definition advises (advice : string) (recommendations : list string) : bool :=
  existsb (String.eqb advice) recommendations.

End AdviceChecks.

(** ** thermal_simulator.py: generate_environmental_parameters *)

Module Environment.

Import Exact.
Local Open Scope Q_scope.

(** The random module as the generator uses it: the floats of
    [random.random()] and the ints of [_randbelow(n)], which [randint]
    draws from; [ints i n] is the value of the i-th coming call when it
    asks for an int below [n]. *)
Record source := {
  floats : rng;
  ints : nat -> Z -> Z
}.

(** Every float is in [0, 1) and every int is below the bound asked for. *)
Definition fair (s : source) : Prop :=
  unit_samples (floats s)
  /\ forall i n, (0 < n)%Z -> (0 <= ints s i n < n)%Z.

Definition Gen (A : Type) : Type := source -> A * source.

Definition ret {A : Type} (a : A) : Gen A := fun s => (a, s).

Definition bind {A B : Type} (m : Gen A) (k : A -> Gen B) : Gen B :=
  fun s => let (a, s') := m s in k a s'.

Local Notation "x <- m ;; k" := (bind m (fun x => k))
  (at level 61, m at next level, right associativity).

(** A computation that only draws floats. *)
Definition lift {A : Type} (m : Rand A) : Gen A :=
  fun s => let (a, g) := m (floats s) in
           (a, {| floats := g; ints := ints s |}).

Definition uniform (a b : Q) : Gen Q := lift (Exact.uniform a b).

(** [random.randint(a, b)] is [a + _randbelow(b - a + 1)]. *)
Definition randint (a b : Z) : Gen Z :=
  fun s => ((a + ints s 0%nat (b - a + 1))%Z,
            {| floats := floats s; ints := fun i => ints s (S i) |}).

Record scenario := {
  temp_range : Q * Q;
  humidity_range : Q * Q;
  wind_range : Q * Q;
  oxygen_range : Q * Q
}.

Definition normal : scenario :=
  {| temp_range := (20, 30); humidity_range := (40, 70);
     wind_range := (0.5, 2.0); oxygen_range := (20.5, 21.0) |}.

(** The [scenarios] dict, lines 109-134. *)
Definition scenarios : list (string * scenario) :=
  [ ("normal"%string, normal);
    ("hot_day"%string,
     {| temp_range := (35, 45); humidity_range := (20, 40);
        wind_range := (0.2, 1.0); oxygen_range := (20.8, 21.0) |});
    ("humid"%string,
     {| temp_range := (25, 35); humidity_range := (80, 95);
        wind_range := (0.1, 0.8); oxygen_range := (20.0, 20.5) |});
    ("poor_ventilation"%string,
     {| temp_range := (22, 32); humidity_range := (50, 80);
        wind_range := (0.05, 0.3); oxygen_range := (19.5, 20.2) |}) ].

(** [d.get(key, default)] *)
Fixpoint get {V : Type} (d : list (string * V)) (key : string) (default : V) : V :=
  match d with
  | [] => default
  | (k, v) :: d' => if String.eqb key k then v else get d' key default
  end.

Definition with_ambient_temperature (v : Q) (e : env_params) : env_params :=
  {| ambient_temperature := v; relative_humidity := relative_humidity e;
     wind_speed := wind_speed e; oxygen_content := oxygen_content e;
     atmospheric_pressure := atmospheric_pressure e;
     pile_height := pile_height e; storage_duration := storage_duration e |}.

Definition with_wind_speed (v : Q) (e : env_params) : env_params :=
  {| ambient_temperature := ambient_temperature e;
     relative_humidity := relative_humidity e;
     wind_speed := v; oxygen_content := oxygen_content e;
     atmospheric_pressure := atmospheric_pressure e;
     pile_height := pile_height e; storage_duration := storage_duration e |}.

Definition with_pile_height (v : Q) (e : env_params) : env_params :=
  {| ambient_temperature := ambient_temperature e;
     relative_humidity := relative_humidity e;
     wind_speed := wind_speed e; oxygen_content := oxygen_content e;
     atmospheric_pressure := atmospheric_pressure e;
     pile_height := v; storage_duration := storage_duration e |}.

(** [if cond: block], where the block updates the parameters. *)
Definition when (cond : bool) (block : env_params -> Gen env_params)
    (e : env_params) : Gen env_params :=
  if cond then block e else ret e.

(** Lines 139-147: the seven draws of the dict display, in its order. *)
Definition base_parameters (sc : scenario) : Gen env_params :=
  t <- uniform (fst (temp_range sc)) (snd (temp_range sc)) ;;
  h <- uniform (fst (humidity_range sc)) (snd (humidity_range sc)) ;;
  w <- uniform (fst (wind_range sc)) (snd (wind_range sc)) ;;
  o <- uniform (fst (oxygen_range sc)) (snd (oxygen_range sc)) ;;
  p <- uniform 98 102 ;;
  ph <- uniform 2.0 8.0 ;;
  d <- randint 1 30 ;;
  ret {| ambient_temperature := t; relative_humidity := h; wind_speed := w;
         oxygen_content := o; atmospheric_pressure := p; pile_height := ph;
         storage_duration := d |}.

(** Lines 149-161: [if image_features:] and its three adjustments. *)
Definition adjust_for_features (image_features : option image_features)
    (e : env_params) : Gen env_params :=
  match image_features with
  | None => ret e
  | Some features =>
      e <- when (Qltb (avg_brightness features) 80) (fun e =>
             d <- uniform 2 8 ;;
             ret (with_ambient_temperature (ambient_temperature e + d) e)) e ;;
      e <- when (Qltb 500 (texture_variance features)) (fun e =>
             d <- uniform 0.7 0.9 ;;
             ret (with_wind_speed (wind_speed e * d) e)) e ;;
      when (100 <? particle_count features)%Z (fun e =>
             d <- uniform 0.5 2.0 ;;
             ret (with_pile_height (pile_height e + d) e)) e
  end.

(** [generate_environmental_parameters], lines 105-163. *)
Definition generate_environmental_parameters
    (image_features : option image_features) (base_scenario : string)
    : Gen env_params :=
  let scenario := get scenarios base_scenario normal in
  e <- base_parameters scenario ;;
  adjust_for_features image_features e.

(** The bounds the generator keeps, over all scenarios and features. *)
Definition plausible (e : env_params) : Prop :=
  (20 <= ambient_temperature e /\ ambient_temperature e <= 53)
  /\ (20 <= relative_humidity e /\ relative_humidity e <= 95)
  /\ (0.035 <= wind_speed e /\ wind_speed e <= 2)
  /\ (19.5 <= oxygen_content e /\ oxygen_content e <= 21)
  /\ (98 <= atmospheric_pressure e /\ atmospheric_pressure e <= 102)
  /\ (2 <= pile_height e /\ pile_height e <= 10)
  /\ (1 <= storage_duration e <= 30)%Z.

(** [lo <= x <= hi] for a range given as a pair. *)
Definition within (range : Q * Q) (x : Q) : Prop :=
  fst range <= x /\ x <= snd range.

End Environment.

(** ** app.py: convert_numpy_types

    The values the function is applied to: Python's own, NumPy's scalars and
    arrays. An array holds items of an integer, floating or boolean dtype,
    which [tolist] hands out as Python scalars. A dict is the sequence of
    its entries in insertion order. *)

Module Values.

#[local] Set Warnings "-register-all".

Inductive item :=
| item_int (n : Z)
| item_float (x : float)
| item_bool (b : bool).

(** An [np.ndarray]: a single item (a 0-d array) or a sequence of
    sub-arrays along its first axis. *)
Inductive ndarray :=
| Item (i : item)
| Axis (l : list ndarray).

Inductive value :=
| PyNone
| PyBool (b : bool)
| PyInt (n : Z)
| PyFloat (x : float)
| PyStr (s : string)
| PyList (l : list value)
| PyTuple (l : list value)
| PyDict (d : list (value * value))
| NpInteger (n : Z)       (* an instance of np.integer *)
| NpFloating (x : float)  (* an instance of np.floating, with its float() *)
| NpBool (b : bool)       (* an np.bool_, which is neither *)
| NpArray (a : ndarray).

(** [ndarray.tolist] *)
Fixpoint tolist (a : ndarray) : value :=
  match a with
  | Item (item_int n) => PyInt n
  | Item (item_float x) => PyFloat x
  | Item (item_bool b) => PyBool b
  | Axis l => PyList (map tolist l)
  end.

(** Lines 11-24. *)
Fixpoint convert_numpy_types (obj : value) : value :=
  match obj with
  | PyDict d =>
      PyDict (map (fun entry =>
                     let '(key, value) := entry in
                     (key, convert_numpy_types value)) d)
  | PyList l => PyList (map convert_numpy_types l)
  | NpInteger n => PyInt n
  | NpFloating x => PyFloat x
  | NpArray a => tolist a
  | _ => obj
  end.

(** No NumPy value anywhere inside. *)
Fixpoint numpy_free (v : value) : bool :=
  match v with
  | NpInteger _ | NpFloating _ | NpBool _ | NpArray _ => false
  | PyList l | PyTuple l => forallb numpy_free l
  | PyDict d =>
      forallb (fun entry =>
                 let '(key, value) := entry in
                 numpy_free key && numpy_free value) d
  | _ => true
  end.

(** A NumPy value where the conversion does not look: an [np.bool_], or
    any NumPy value inside a tuple or a dict key. *)
Fixpoint out_of_reach (v : value) : bool :=
  match v with
  | NpBool _ => true
  | PyTuple l => negb (forallb numpy_free l)
  | PyList l => existsb out_of_reach l
  | PyDict d =>
      existsb (fun entry =>
                 let '(key, value) := entry in
                 negb (numpy_free key) || out_of_reach value) d
  | _ => false
  end.

End Values.

(** ** app.py: one entry of batch_thermal_analysis *)

Module Batch.

Local Open Scope float_scope.

(** Lines 599-609: the CPT of the generated coal properties, the two risk
    assessments and their mean. The chemical scorer gets no other index, and
    the wind speed as its ventilation rate. [None] stands for an exception,
    which drops the image from the batch. *)
Definition combined_risk_score {map : Type}
    (moisture volatile_matter ash fixed_carbon : float)
    (ambient_temperature wind_speed : float)
    (temperature_map : map) (temp_stats : Thermal.temp_stats)
    : option float :=
  let cpt :=
    Analyzer.crossing_point_temperature moisture volatile_matter ash
      fixed_carbon in
  let thermal_risk := Thermal.assess_thermal_risk temperature_map temp_stats in
  let standard_risk :=
    Analyzer.risk_assessment cpt None None None ambient_temperature
      wind_speed in
  PyFloat.int_truediv
    (Analyzer.risk_score standard_risk
     + Thermal.thermal_risk_score thermal_risk) 2.

End Batch.

(** ** More concrete inputs *)

Module Sources.

Local Open Scope Q_scope.

(** A source whose floats and ints are all 0. *)
Definition calm : Environment.source :=
  {| Environment.floats := Samples.zeros;
     Environment.ints := fun _ _ => 0%Z |}.

(** A source whose floats are all 0.9. *)
Definition eager : Environment.source :=
  {| Environment.floats := fun _ => 0.9;
     Environment.ints := fun _ _ => 0%Z |}.



(** A result dict as the routes build it, without NumPy values. *)
Definition native_result : Values.value :=
  Values.PyDict
    [(Values.PyStr "cpt"%string, Values.PyFloat 143.0%float);
     (Values.PyStr "risk_factors"%string,
      Values.PyList [Values.PyStr "Low CPT Risk"%string; Values.PyNone]);
     (Values.PyStr "shape"%string, Values.PyTuple [Values.PyInt 2; Values.PyInt 3])].

End Sources.

(** ** The temperature statistics

    The dict built in [create_thermal_visualization] (lines 273-279), in the
    fallbacks of [analyze_thermal_image] (lines 421-427 and 432-438) and in
    [batch_thermal_analysis] (lines 590-596), with every cell read as the
    rational it holds. [np.min] and [np.max] select a cell and the
    comparisons with 80 and with the hot-spot threshold are exact.
    [np.mean] and [np.std] reduce the array in single precision, in an
    order that NumPy chooses: their results are taken as they come, as
    parameters, and the threshold is rounded as the code rounds it. The
    percentage is read in exact arithmetic. *)

Module Statistics.

Import Exact.
Local Open Scope Q_scope.

Record temp_stats := {
  min_temp : Q;
  max_temp : Q;
  avg_temp : Q;
  hot_spot_count : Z;
  critical_area_percentage : Q
}.

(** The cells of an array in row-major order. *)
Definition cells (a : array) : list Q := List.concat a.

(** [a.size] *)
Definition size (a : array) : Z := Z.of_nat (List.length (cells a)).

(** The minimum and the maximum of a cell and a list of further cells. *)
Definition minimum (x : Q) (l : list Q) : Q :=
  fold_left (fun m y => if Qltb y m then y else m) l x.

Definition maximum (x : Q) (l : list Q) : Q :=
  fold_left (fun m y => if Qltb m y then y else m) l x.

(** [np.sum(a > threshold)] or [(a > threshold).sum()] *)
Definition count_above (threshold : Q) (l : list Q) : Z :=
  Z.of_nat (List.length (filter (fun c => Qltb threshold c) l)).

(** The statistics of a temperature map; [None] for an array without
    cells, on which [min] raises. *)
Definition statistics (r : rounding) (np_mean np_std : array -> Q)
    (temperature_map : array) : option temp_stats :=
  match cells temperature_map with
  | [] => None
  | x :: l =>
      let n := inject_Z (size temperature_map) in
      let mean := np_mean temperature_map in
      let threshold :=
        single r (mean + single r (2 * np_std temperature_map)) in
      Some {| min_temp := minimum x l;
              max_temp := maximum x l;
              avg_temp := mean;
              hot_spot_count := count_above threshold (x :: l);
              critical_area_percentage :=
                inject_Z (count_above 80 (x :: l)) / n * 100 |}
  end.

End Statistics.

(** A float that is a NaN. *)
Definition nan_float (x : float) : Prop := Prim2SF x = S754_nan.

(** * Theorems *)

(** ** Order facts on binary64 *)

Section FloatOrder.

Local Open Scope float_scope.

Lemma SFcompare_antisym (a b : spec_float) :
  SFcompare b a = option_map CompOpp (SFcompare a b).
Proof.
  destruct a as [sa | sa | | sa ma ea], b as [sb | sb | | sb mb eb];
    simpl; try reflexivity;
    try (destruct sa; reflexivity); try (destruct sb; reflexivity);
    try (destruct sa, sb; reflexivity).
  destruct sa, sb; simpl; try reflexivity;
    rewrite (Z.compare_antisym ea eb);
    destruct (ea ?= eb)%Z; simpl; try reflexivity;
    change (PosDef.Pos.compare_cont Eq) with Pos.compare;
    rewrite (Pos.compare_antisym ma mb);
    destruct (ma ?= mb)%positive; reflexivity.
Qed.

Lemma ltb_leb (x y : float) : (x <? y) = true -> (x <=? y) = true.
Proof.
  rewrite ltb_spec, leb_spec. unfold SFltb, SFleb.
  destruct (SFcompare (Prim2SF x) (Prim2SF y)) as [[]|]; congruence.
Qed.

Lemma leb_not_ltb (x y : float) : (x <=? y) = true -> (y <? x) = false.
Proof.
  rewrite ltb_spec, leb_spec. unfold SFltb, SFleb.
  rewrite (SFcompare_antisym (Prim2SF x) (Prim2SF y)).
  destruct (SFcompare (Prim2SF x) (Prim2SF y)) as [[]|]; simpl; congruence.
Qed.

(** A float above 100 is not zero, so dividing by it cannot raise. *)
Lemma above_100_nonzero (t : float) : (100 <? t) = true -> (t =? 0) = false.
Proof.
  rewrite ltb_spec, eqb_spec. unfold SFltb, SFeqb.
  replace (Prim2SF 100) with (S754_finite false 7036874417766400 (-46))
    by (vm_compute; reflexivity).
  replace (Prim2SF 0) with (S754_zero false) by (vm_compute; reflexivity).
  destruct (Prim2SF t) as [s | s | | s m e]; simpl; try congruence;
    destruct s; congruence.
Qed.

End FloatOrder.

(** ** The chemical indices *)

Section Indices.

Local Open Scope float_scope.
Import Analyzer.

(** C6: for moisture 10, volatile matter 35, ash 15 and fixed carbon 40 the
    crossing point temperature is exactly 143.0, the liability index is
    23.33 and the Olpinski index is 0.2. *)
Theorem scenario_1_indices :
  crossing_point_temperature 10 35 15 40 = Some 143.0
  /\ liability_index 10 35 15 = Some 23.33
  /\ olpinski_index 10 35 15 = Some 0.2.
Proof. vm_compute. repeat split; reflexivity. Qed.

(** C7, as stated: [wits_index] does not return 587.8 on the scenario's
    inputs. *)
Lemma wits_index_scenario_1_not_587_8 :
  wits_index 10 35 15 20.9 <> Some 587.8.
Proof.
  intro H.
  assert (E : PyFloat.returns (wits_index 10 35 15 20.9) 587.8 = true)
    by (rewrite H; reflexivity).
  vm_compute in E. discriminate E.
Qed.

(** C7, amended: for moisture 10, volatile matter 35, ash 15 and oxygen 20.9
    [wits_index] returns 58.78, the value of (10+35)*20.9/(15+1) rounded to
    two decimals. *)
Theorem wits_index_scenario_1 :
  wits_index 10 35 15 20.9 = Some 58.78.
Proof. vm_compute. reflexivity. Qed.

(** C8: with ash = 0 the liability index is [None], whatever the moisture
    and the volatile matter are. *)
Theorem liability_index_zero_ash (moisture volatile_matter : float) :
  liability_index moisture volatile_matter 0 = None.
Proof. reflexivity. Qed.

(** The division of [crossing_point_temperature] never raises. *)
Lemma div_by_total (x total : float) :
  (100 <? total) = true -> PyFloat.div x total = Some (x / total).
Proof.
  intro H. unfold PyFloat.div. now rewrite (above_100_nonzero total H).
Qed.

(** [max(120, min(200, c))] lies in [120, 200] for every float [c],
    NaN included. *)
Lemma clamp_120_200 (c : float) :
  (120 <=? PyFloat.max 120 (PyFloat.min 200 c)) = true
  /\ (PyFloat.max 120 (PyFloat.min 200 c) <=? 200) = true.
Proof.
  unfold PyFloat.min, PyFloat.max.
  destruct (c <? 200) eqn:Hhi.
  - destruct (120 <? c) eqn:Hlo.
    + split; apply ltb_leb; assumption.
    + split; reflexivity.
  - split; reflexivity.
Qed.

(** C10: [crossing_point_temperature] never raises on floats; it returns
    max(120, min(200, 150 + 0.3 ash' - 0.5 vm' + 0.2 moisture' + 0.1 fc'))
    where the primed values are the inputs rescaled by 100/total when the
    total exceeds 100 and the raw inputs otherwise; the result is always in
    [120, 200]. *)
Theorem crossing_point_temperature_clamped
    (moisture volatile_matter ash fixed_carbon : float) :
  let cpt := Stated.cpt moisture volatile_matter ash fixed_carbon in
  crossing_point_temperature moisture volatile_matter ash fixed_carbon = Some cpt
  /\ (120 <=? cpt) = true /\ (cpt <=? 200) = true.
Proof.
  intro cpt. split; [| apply clamp_120_200].
  subst cpt. unfold crossing_point_temperature, Stated.cpt.
  destruct (100 <? moisture + volatile_matter + ash + fixed_carbon) eqn:Htotal.
  - rewrite !(div_by_total _ _ Htotal). reflexivity.
  - reflexivity.
Qed.

End Indices.

(** ** The scorers *)

Section Scorers.

Local Open Scope float_scope.
Import Analyzer.

Ltac branch :=
  match goal with
  | |- context [if ?c then _ else _] => destruct c eqn:?; cbv beta iota
  end.

(** The record's score is the tally's. *)
Lemma risk_score_tally (cpt li wits oi : option float)
    (ambient_temp ventilation_rate : float) :
  risk_score (risk_assessment cpt li wits oi ambient_temp ventilation_rate)
  = snd (chemical_tally cpt li wits ambient_temp ventilation_rate).
Proof.
  unfold risk_assessment.
  generalize (chemical_tally cpt li wits ambient_temp ventilation_rate).
  intros [factors score]. cbn [snd fst].
  destruct (80 <=? score)%Z; [reflexivity |].
  destruct (60 <=? score)%Z; [reflexivity |].
  destruct (40 <=? score)%Z; reflexivity.
Qed.

(** An [if v:] block that adds [points v] adds the stated points of the
    index once a zero is dropped. *)
Lemma if_truthy_score (v : option float) (block : float -> tally -> tally)
    (points : float -> Z) (st : tally) :
  (forall x st', snd (block x st') = (snd st' + points x)%Z) ->
  snd (if_truthy v block st)
  = (snd st + Stated.present points (Stated.drop_zero v))%Z.
Proof.
  intro Hblock. unfold if_truthy, Stated.drop_zero, PyFloat.truthy_opt.
  destruct v as [x|]; cbn; [| lia].
  destruct (PyFloat.truthy x); cbn; [apply Hblock | lia].
Qed.

(** [if c: risk_factors.append(f); risk_score += points] *)
Lemma if_flag_score (c : bool) (f : risk_factor) (points : Z) (st : tally) :
  snd (if c then flag f points st else st)
  = (snd st + (if c then points else 0))%Z.
Proof. destruct c; cbn; lia. Qed.

(** The code's score is the stated sum once zero indices are dropped. *)
Lemma risk_score_drops_zero (cpt li wits oi : option float)
    (ambient_temp ventilation_rate : float) :
  risk_score (risk_assessment cpt li wits oi ambient_temp ventilation_rate)
  = Stated.chemical_score (Stated.drop_zero cpt) (Stated.drop_zero li)
      (Stated.drop_zero wits) ambient_temp ventilation_rate.
Proof.
  rewrite risk_score_tally.
  unfold chemical_tally, Stated.chemical_score, Stated.environment_points.
  cbv zeta.
  rewrite !if_flag_score.
  rewrite (if_truthy_score wits _ Stated.wits_points)
    by (intros x st'; unfold Stated.wits_points; repeat branch; reflexivity).
  rewrite (if_truthy_score li _ Stated.li_points)
    by (intros x st'; unfold Stated.li_points; repeat branch; reflexivity).
  rewrite (if_truthy_score cpt _ Stated.cpt_points)
    by (intros x st'; unfold Stated.cpt_points; repeat branch; reflexivity).
  cbn [snd]. lia.
Qed.

(** X23: with every present index non-zero the code's score is the sum of
    the band points of the present indices and the environment bonuses. *)
Lemma risk_score_banded (cpt li wits oi : option float)
    (ambient_temp ventilation_rate : float) :
  Stated.drop_zero cpt = cpt -> Stated.drop_zero li = li ->
  Stated.drop_zero wits = wits ->
  risk_score (risk_assessment cpt li wits oi ambient_temp ventilation_rate)
  = Stated.chemical_score cpt li wits ambient_temp ventilation_rate.
Proof.
  intros Hc Hl Hw. rewrite risk_score_drops_zero, Hc, Hl, Hw. reflexivity.
Qed.

Lemma risk_score_banded_witness :
  risk_score (risk_assessment (Some 143) (Some 23.33) (Some 58.78) None 25 1)
  = Stated.chemical_score (Some 143) (Some 23.33) (Some 58.78) 25 1.
Proof.
  apply (risk_score_banded (Some 143) (Some 23.33) (Some 58.78) None 25 1);
    reflexivity.
Defined.

(** C2, at a zero index: a liability index of 0.0 is present, and the
    stated sum gives it the 5 points of its low band, yet the code scores
    it like a missing index. The second part runs the whole manual path
    on moisture 0, volatile matter 30, ash 10, fixed carbon 60: all four
    indices are computed, the liability index is 0.0, and the code's score
    is 50 where the stated sum is 55. *)
Theorem risk_assessment_skips_zero_index :
  (risk_score (risk_assessment None (Some 0) None None 25 1) = 0%Z
   /\ Stated.chemical_score None (Some 0) None 25 1 = 5%Z)
  /\ (let cpt := crossing_point_temperature 0 30 10 60 in
      let li := liability_index 0 30 10 in
      let wits := wits_index 0 30 10 20.9 in
      let oi := olpinski_index 0 30 10 in
      li = Some 0
      /\ risk_score (risk_assessment cpt li wits oi 25 1) = 50%Z
      /\ Stated.chemical_score cpt li wits 25 1 = 55%Z).
Proof. vm_compute. repeat split; reflexivity. Qed.

(** The chemical score is one of finitely many sums, all in [0, 115]. *)
Lemma risk_score_range (cpt li wits oi : option float)
    (ambient_temp ventilation_rate : float) :
  (0 <= risk_score (risk_assessment cpt li wits oi ambient_temp ventilation_rate)
   <= 115)%Z.
Proof.
  rewrite risk_score_drops_zero.
  unfold Stated.chemical_score, Stated.environment_points.
  assert (0 <= Stated.present Stated.cpt_points (Stated.drop_zero cpt) <= 40)%Z
    by (destruct (Stated.drop_zero cpt); cbn; [unfold Stated.cpt_points |];
        repeat branch; lia).
  assert (0 <= Stated.present Stated.li_points (Stated.drop_zero li) <= 25)%Z
    by (destruct (Stated.drop_zero li); cbn; [unfold Stated.li_points |];
        repeat branch; lia).
  assert (0 <= Stated.present Stated.wits_points (Stated.drop_zero wits) <= 20)%Z
    by (destruct (Stated.drop_zero wits); cbn; [unfold Stated.wits_points |];
        repeat branch; lia).
  repeat branch; lia.
Qed.

(** The category bands on an int score. *)
Lemma category_inject_Z (s : Z) :
  Stated.category (inject_Z s)
  = if (80 <=? s)%Z then (CRITICAL, danger)
    else if (60 <=? s)%Z then (HIGH, warning)
    else if (40 <=? s)%Z then (MODERATE, info)
    else (LOW, success).
Proof.
  unfold Stated.category, Qle_bool, inject_Z. cbn [Qnum Qden].
  rewrite !Z.mul_1_r. reflexivity.
Qed.

(** The category of the standalone path is the stated band of its score. *)
Lemma risk_assessment_category (cpt li wits oi : option float)
    (ambient_temp ventilation_rate : float) :
  let r := risk_assessment cpt li wits oi ambient_temp ventilation_rate in
  (overall_risk r, color r) = Stated.category (inject_Z (risk_score r)).
Proof.
  cbv zeta. rewrite category_inject_Z. unfold risk_assessment.
  generalize (chemical_tally cpt li wits ambient_temp ventilation_rate).
  intros [factors score]. cbn [snd fst].
  destruct (80 <=? score)%Z eqn:H80; cbn; [now rewrite H80 |].
  destruct (60 <=? score)%Z eqn:H60; cbn; [now rewrite H80, H60 |].
  destruct (40 <=? score)%Z eqn:H40; cbn; now rewrite H80, H60, H40.
Qed.

(** C9: with all four indices missing and the environment within its safe
    bounds (ambient temperature <= 30, ventilation >= 0.5) the chemical
    scorer returns a result: score 0, category LOW, colour success and no
    factor. *)
Theorem risk_assessment_all_missing (ambient_temp ventilation_rate : float) :
  (ambient_temp <=? 30) = true ->
  (0.5 <=? ventilation_rate) = true ->
  risk_assessment None None None None ambient_temp ventilation_rate
  = {| overall_risk := LOW; risk_score := 0; risk_factors := [];
       color := success |}.
Proof.
  intros Ht Hv. unfold risk_assessment, chemical_tally, if_truthy.
  rewrite (leb_not_ltb _ _ Ht), (leb_not_ltb _ _ Hv). reflexivity.
Qed.

Lemma risk_assessment_all_missing_witness :
  risk_assessment None None None None 25 1
  = {| overall_risk := LOW; risk_score := 0; risk_factors := [];
       color := success |}.
Proof.
  apply (risk_assessment_all_missing 25 1); reflexivity.
Defined.

(** The thermal tally adds up the four stated bands. *)
Lemma thermal_tally_sum (stats : Thermal.temp_stats) :
  snd (Thermal.thermal_tally stats) = Stated.thermal_band_sum stats.
Proof.
  unfold Thermal.thermal_tally, Stated.thermal_band_sum,
    Stated.max_temp_points, Stated.avg_temp_points,
    Stated.critical_area_points, Stated.hot_spot_points.
  cbv zeta. repeat branch; reflexivity.
Qed.

Lemma thermal_band_sum_range (stats : Thermal.temp_stats) :
  (0 <= Stated.thermal_band_sum stats <= 90)%Z.
Proof.
  unfold Stated.thermal_band_sum,
    Stated.max_temp_points, Stated.avg_temp_points,
    Stated.critical_area_points, Stated.hot_spot_points.
  repeat branch; lia.
Qed.

Lemma thermal_risk_score_range {map : Type} (temperature_map : map)
    (stats : Thermal.temp_stats) :
  (0 <= Thermal.thermal_risk_score
          (Thermal.assess_thermal_risk temperature_map stats) <= 100)%Z.
Proof.
  unfold Thermal.assess_thermal_risk. cbn [Thermal.thermal_risk_score].
  rewrite thermal_tally_sum.
  pose proof (thermal_band_sum_range stats). lia.
Qed.

(** C4: the thermal risk score is the sum of the four band contributions,
    clamped from above to 100, and so lies in [0, 100]. *)
Theorem thermal_risk_score_clamped {map : Type} (temperature_map : map)
    (stats : Thermal.temp_stats) :
  let score :=
    Thermal.thermal_risk_score
      (Thermal.assess_thermal_risk temperature_map stats) in
  score = Z.min (Stated.thermal_band_sum stats) 100
  /\ (0 <= score <= 100)%Z.
Proof.
  intro score. split; [| apply thermal_risk_score_range].
  subst score. unfold Thermal.assess_thermal_risk.
  cbn [Thermal.thermal_risk_score]. now rewrite thermal_tally_sum.
Qed.

End Scorers.

(** ** The combiner *)

Section Combiner.

Import Analyzer.

Lemma category_eqb_eq (a b : risk_level * color_tag) :
  Checks.category_eqb a b = true -> a = b.
Proof.
  destruct a as [[] []], b as [[] []]; cbn; congruence.
Qed.

(** Every sum of two scores, from 0 to 215, is halved exactly. *)
Lemma halves_exactly_upto_215 :
  forallb Checks.halves_exactly (map Z.of_nat (seq 0 216)) = true.
Proof. vm_compute. reflexivity. Qed.

Lemma halves_exactly_range (s : Z) :
  (0 <= s <= 215)%Z -> Checks.halves_exactly s = true.
Proof.
  intro Hs. apply (proj1 (forallb_forall _ _) halves_exactly_upto_215).
  apply in_map_iff. exists (Z.to_nat s). split; [lia |].
  apply in_seq. lia.
Qed.

(** The combiner on two records whose scores are in the scorers' ranges. *)
Lemma combine_in_range (standard : assessment) (thermal : Thermal.thermal_risk) :
  let c := risk_score standard in
  let t := Thermal.thermal_risk_score thermal in
  (0 <= c <= 115)%Z -> (0 <= t <= 100)%Z ->
  exists r q,
    Combined.combine standard thermal = Some r
    /\ PyFloat.to_Q (Combined.risk_score r) = Some q
    /\ (q == inject_Z (c + t) / 2)%Q
    /\ (Combined.overall_risk r, Combined.color r)
       = Stated.category (inject_Z (c + t) / 2)
    /\ Combined.standard_risk_score r = c
    /\ Combined.thermal_risk_score r = t.
Proof.
  intros c t Hc Ht.
  assert (Hs : Checks.halves_exactly (c + t) = true)
    by (apply halves_exactly_range; lia).
  unfold Checks.halves_exactly in Hs. unfold Combined.combine. fold c t.
  destruct (PyFloat.int_truediv (c + t) 2) as [x|]; [| discriminate Hs].
  destruct (PyFloat.to_Q x) as [q|] eqn:Hq; [| discriminate Hs].
  apply andb_prop in Hs as [Hhalf Hcat].
  apply Qeq_bool_iff in Hhalf. apply category_eqb_eq in Hcat.
  cbn [bind]. rewrite Hcat.
  destruct (Stated.category (inject_Z (c + t) / 2)) as [level tag].
  eexists. exists q. split; [reflexivity |]. cbn.
  repeat split; assumption.
Qed.

(** The cascade of thresholds picks the band of each interval. *)
Lemma category_banded (s : Q) : Stated.banded s (Stated.category s).
Proof.
  unfold Stated.banded, Stated.category.
  destruct (Qle_bool 80 s) eqn:H80;
    [apply Qle_bool_iff in H80
    | assert (~ (80 <= s)%Q) by (rewrite <- Qle_bool_iff; congruence)];
  (destruct (Qle_bool 60 s) eqn:H60;
    [apply Qle_bool_iff in H60
    | assert (~ (60 <= s)%Q) by (rewrite <- Qle_bool_iff; congruence)]);
  (destruct (Qle_bool 40 s) eqn:H40;
    [apply Qle_bool_iff in H40
    | assert (~ (40 <= s)%Q) by (rewrite <- Qle_bool_iff; congruence)]);
  repeat split; intros; try reflexivity; exfalso; lra.
Qed.

(** C3: on the image path the combined score is computed without error and
    is exactly (c + t) / 2 for the chemical score c and the thermal score t,
    and both the standalone chemical result and the combined result carry
    the category of their score: CRITICAL/danger from 80, HIGH/warning from
    60, MODERATE/info from 40, LOW/success below. *)
Theorem combined_score_and_categories {map : Type}
    (cpt li wits oi : option float) (ambient_temp ventilation_rate : float)
    (temperature_map : map) (stats : Thermal.temp_stats) :
  let standard := risk_assessment cpt li wits oi ambient_temp ventilation_rate in
  let thermal := Thermal.assess_thermal_risk temperature_map stats in
  let c := risk_score standard in
  let t := Thermal.thermal_risk_score thermal in
  Stated.banded (inject_Z c) (overall_risk standard, color standard)
  /\ exists r q,
       Combined.combine standard thermal = Some r
       /\ PyFloat.to_Q (Combined.risk_score r) = Some q
       /\ (q == inject_Z (c + t) / 2)%Q
       /\ Stated.banded (inject_Z (c + t) / 2)
            (Combined.overall_risk r, Combined.color r).
Proof.
  intros standard thermal c t. split.
  - subst c standard. rewrite risk_assessment_category. apply category_banded.
  - destruct (combine_in_range standard thermal) as (r & q & Hr & Hq & Hh & Hc & _).
    + apply risk_score_range.
    + apply thermal_risk_score_range.
    + exists r, q. repeat split; try assumption.
      all: rewrite Hc; apply category_banded.
Qed.

End Combiner.

(** ** The thermal pipeline in exact arithmetic *)

Section ExactArithmetic.

Import Exact.
Local Open Scope Q_scope.

Lemma Qltb_true (a b : Q) : Qltb a b = true -> a < b.
Proof.
  unfold Qltb. destruct (a ?= b) eqn:E; try discriminate.
  intros _. now apply Qlt_alt.
Qed.

Lemma Qltb_false (a b : Q) : Qltb a b = false -> b <= a.
Proof.
  unfold Qltb. destruct (a ?= b) eqn:E; try discriminate; intros _.
  - apply Qeq_alt in E. rewrite E. apply Qle_refl.
  - apply Qgt_alt in E. now apply Qlt_le_weak.
Qed.

Ltac by_cases_Qltb :=
  repeat match goal with
  | |- context [Qltb ?a ?b] =>
      let E := fresh "E" in
      destruct (Qltb a b) eqn:E;
      [apply Qltb_true in E | apply Qltb_false in E]
  end.


(** [max(lo, min(hi, x))] lands in the interval as well. *)
Lemma py_clamp_bounds (lo hi x : Q) :
  lo <= hi -> lo <= py_max lo (py_min hi x) /\ py_max lo (py_min hi x) <= hi.
Proof.
  intro Hle. unfold py_max, py_min. by_cases_Qltb; split; lra.
Qed.



(** Whatever is drawn, the sampled properties stay above fixed floors. *)
Lemma sample_properties_floors (features : option image_features)
    (env : env_params) (g : rng) :
  unit_samples g ->
  let p := fst (sample_properties features env g) in
  4 <= moisture p /\ 25 <= volatile_matter p /\ 8 <= ash p
  /\ 35 <= fixed_carbon p.
Proof.
  intro Hg.
  pose proof (Hg 0%nat); pose proof (Hg 1%nat); pose proof (Hg 2%nat);
  pose proof (Hg 3%nat); pose proof (Hg 4%nat); pose proof (Hg 5%nat);
  pose proof (Hg 6%nat); pose proof (Hg 7%nat); pose proof (Hg 8%nat);
  pose proof (Hg 9%nat); pose proof (Hg 10%nat); pose proof (Hg 11%nat).
  unfold sample_properties, base_properties, adjust_for_features,
    adjust_for_environment, when, uniform, random, bind, ret.
  destruct features as [features|];
    repeat match goal with
    | |- context [if ?c then _ else _] => destruct c
    end;
    cbn; repeat split; lra.
Qed.

(** Normalization scales a positive total to exactly 100. *)
Lemma normalize_total (p : coal_properties) :
  0 < total p -> total (normalize p) == 100.
Proof.
  intro Hpos. unfold normalize.
  destruct (Qltb 0 (total p)) eqn:E.
  - unfold total in *. cbn [moisture volatile_matter ash fixed_carbon].
    field. lra.
  - apply Qltb_false in E. lra.
Qed.

Lemma unit_samples_volatile_heavy : unit_samples Samples.volatile_heavy.
Proof.
  intro n. unfold Samples.volatile_heavy.
  do 7 (destruct n as [|n]; [split; [discriminate | reflexivity] |]).
  split; [discriminate | reflexivity].
Qed.

(** C5: on the path that does not raise, the four properties add up to
    exactly 100 right after the normalization step (in exact arithmetic, the
    claim's floating tolerance being rounding), the returned properties are
    the clamped normalized ones, with moisture in [1,20], volatile matter in
    [15,50], ash in [5,35] and fixed carbon in [25,70]; the clamped values
    are not normalized again, and for some draws their sum is not 100. *)
Theorem coal_properties_normalized_then_clamped
    (features : option image_features) (env : env_params) (g : rng) :
  unit_samples g ->
  let raw := fst (sample_properties features env g) in
  let out := fst (generate_coal_properties_from_image features env g) in
  total (normalize raw) == 100
  /\ out = clamp (normalize raw)
  /\ (1 <= moisture out /\ moisture out <= 20)
  /\ (15 <= volatile_matter out /\ volatile_matter out <= 50)
  /\ (5 <= ash out /\ ash out <= 35)
  /\ (25 <= fixed_carbon out /\ fixed_carbon out <= 70)
  /\ exists features' env' g',
       unit_samples g'
       /\ ~ total (fst (generate_coal_properties_from_image features' env' g'))
            == 100.
Proof.
  intros Hg raw out.
  assert (Hout : out = clamp (normalize raw)).
  { subst out raw. unfold generate_coal_properties_from_image, bind, ret.
    destruct (sample_properties features env g) as [p g']. reflexivity. }
  split.
  { apply normalize_total.
    destruct (sample_properties_floors features env g Hg) as (Hm & Hv & Ha & Hf).
    fold raw in Hm, Hv, Ha, Hf. unfold total. lra. }
  split; [exact Hout |].
  rewrite Hout. unfold clamp. cbn [moisture volatile_matter ash fixed_carbon].
  repeat (split;
    [match goal with
     | |- _ <= py_max ?lo (py_min ?hi ?x) /\ _ =>
         pose proof (py_clamp_bounds lo hi x ltac:(lra)); lra
     end |]).
  exists (Some Samples.dark_fine), Samples.mild, Samples.volatile_heavy.
  split; [apply unit_samples_volatile_heavy |].
  intro Heq. apply Qeq_bool_iff in Heq. vm_compute in Heq. discriminate Heq.
Qed.

Lemma unit_samples_zeros : unit_samples Samples.zeros.
Proof. intro n. split; [discriminate | reflexivity]. Defined.

Lemma coal_properties_normalized_then_clamped_witness :
  total (normalize (fst (sample_properties None Samples.mild Samples.zeros)))
  == 100.
Proof.
  pose proof (coal_properties_normalized_then_clamped None Samples.mild
                Samples.zeros unit_samples_zeros) as H.
  cbv zeta in H. exact (proj1 H).
Defined.

End ExactArithmetic.

(** ** The simulated fields in single precision *)

Section SinglePrecision.

Import Single.
Local Open Scope float_scope.









(** *** A cell without heat *)








End SinglePrecision.

(** ** More order facts on binary64 *)

Section FloatKeys.

Import FloatKey.
Local Open Scope float_scope.

Lemma SFcompare_key (a b : spec_float) :
  match SFcompare a b with
  | Some Lt => on_keys lex_ltb (key a) (key b) = true
  | Some Eq => on_keys lex_eqb (key a) (key b) = true
  | Some Gt => on_keys lex_ltb (key b) (key a) = true
  | None => key a = None \/ key b = None
  end.
Proof.
  destruct a as [sa | sa | | sa ma ea], b as [sb | sb | | sb mb eb];
    cbn; auto;
    try (destruct sa; reflexivity); try (destruct sb; reflexivity);
    try (destruct sa, sb; reflexivity).
  destruct sa, sb;
    cbv beta iota delta [SFcompare key on_keys lex_ltb lex_eqb];
    try reflexivity;
    change (PosDef.Pos.compare_cont Eq) with Pos.compare;
    destruct (Z.compare_spec ea eb); cbv beta iota delta [CompOpp];
    try destruct (Pos.compare_spec ma mb); cbv beta iota;
    repeat (rewrite Bool.orb_true_iff || rewrite Bool.andb_true_iff
            || rewrite Z.ltb_lt || rewrite Z.eqb_eq);
    lia.
Qed.

Lemma lex_trichotomy (a b : Z * Z * Z) :
  (lex_ltb a b = true /\ lex_eqb a b = false /\ lex_ltb b a = false)
  \/ (lex_ltb a b = false /\ lex_eqb a b = true /\ lex_ltb b a = false)
  \/ (lex_ltb a b = false /\ lex_eqb a b = false /\ lex_ltb b a = true).
Proof.
  destruct a as [[r1 e1] m1], b as [[r2 e2] m2]. unfold lex_ltb, lex_eqb.
  destruct (Z.ltb_spec r1 r2), (Z.eqb_spec r1 r2), (Z.ltb_spec r2 r1),
    (Z.ltb_spec e1 e2), (Z.eqb_spec e1 e2), (Z.ltb_spec e2 e1),
    (Z.ltb_spec m1 m2), (Z.eqb_spec m1 m2), (Z.ltb_spec m2 m1);
    cbn; try lia; auto.
Qed.

(** [<], [<=] and [==] on floats are the lexicographic tests on keys. *)
Lemma ltb_fkey (x y : float) :
  (x <? y) = on_keys lex_ltb (fkey x) (fkey y).
Proof.
  rewrite ltb_spec. unfold SFltb, fkey.
  pose proof (SFcompare_key (Prim2SF x) (Prim2SF y)) as H.
  destruct (SFcompare (Prim2SF x) (Prim2SF y)) as [[]|].
  - destruct (key (Prim2SF x)) as [a|], (key (Prim2SF y)) as [b|];
      try discriminate H. cbn in *.
    destruct (lex_trichotomy a b) as [(?&?&?)|[(?&?&?)|(?&?&?)]]; congruence.
  - symmetry. exact H.
  - destruct (key (Prim2SF x)) as [a|], (key (Prim2SF y)) as [b|];
      try discriminate H. cbn in *.
    destruct (lex_trichotomy a b) as [(?&?&?)|[(?&?&?)|(?&?&?)]]; congruence.
  - destruct H as [H | H]; rewrite H; [reflexivity |].
    destruct (key (Prim2SF x)); reflexivity.
Qed.

Lemma eqb_fkey (x y : float) :
  (x =? y) = on_keys lex_eqb (fkey x) (fkey y).
Proof.
  rewrite eqb_spec. unfold SFeqb, fkey.
  pose proof (SFcompare_key (Prim2SF x) (Prim2SF y)) as H.
  destruct (SFcompare (Prim2SF x) (Prim2SF y)) as [[]|].
  - symmetry. exact H.
  - destruct (key (Prim2SF x)) as [a|], (key (Prim2SF y)) as [b|];
      try discriminate H. cbn in *.
    destruct (lex_trichotomy a b) as [(?&?&?)|[(?&?&?)|(?&?&?)]]; congruence.
  - destruct (key (Prim2SF x)) as [a|], (key (Prim2SF y)) as [b|];
      try discriminate H. cbn in *.
    destruct (lex_trichotomy a b) as [(?&?&?)|[(?&?&?)|(?&?&?)]]; congruence.
  - destruct H as [H | H]; rewrite H; [reflexivity |].
    destruct (key (Prim2SF x)); reflexivity.
Qed.

Lemma leb_fkey (x y : float) :
  (x <=? y) = on_keys (fun a b => lex_ltb a b || lex_eqb a b) (fkey x) (fkey y).
Proof.
  rewrite leb_spec. unfold SFleb, fkey.
  pose proof (SFcompare_key (Prim2SF x) (Prim2SF y)) as H.
  destruct (SFcompare (Prim2SF x) (Prim2SF y)) as [[]|].
  - destruct (key (Prim2SF x)) as [a|], (key (Prim2SF y)) as [b|];
      try discriminate H. cbn in *. rewrite H. now rewrite Bool.orb_true_r.
  - destruct (key (Prim2SF x)) as [a|], (key (Prim2SF y)) as [b|];
      try discriminate H. cbn in *. now rewrite H.
  - destruct (key (Prim2SF x)) as [a|], (key (Prim2SF y)) as [b|];
      try discriminate H. cbn in *.
    destruct (lex_trichotomy a b) as [(?&?&?)|[(?&?&?)|(?&?&?)]];
      try congruence.
    rewrite H0, H1. reflexivity.
  - destruct H as [H | H]; rewrite H; [reflexivity |].
    destruct (key (Prim2SF x)); reflexivity.
Qed.

End FloatKeys.

(** Decides a goal that follows from comparisons of floats, by moving to
    their keys and to linear integer arithmetic. *)
Ltac float_key_of x :=
  tryif is_var x
  then destruct (FloatKey.fkey x) as [[[? ?] ?]|]
  else (let v := eval vm_compute in (FloatKey.fkey x) in
        change (FloatKey.fkey x) with v in * ).

Ltac float_keys :=
  unfold PyFloat.truthy in *;
  rewrite ?ltb_fkey, ?leb_fkey, ?eqb_fkey in *;
  repeat match goal with
  | H : context [FloatKey.fkey ?x] |- _ => float_key_of x
  | |- context [FloatKey.fkey ?x] => float_key_of x
  end;
  cbv beta iota delta [FloatKey.on_keys FloatKey.lex_ltb FloatKey.lex_eqb] in *.

Ltac float_order :=
  float_keys;
  repeat match goal with
  | H : negb _ = true |- _ => apply Bool.negb_true_iff in H
  | H : negb _ = false |- _ => apply Bool.negb_false_iff in H
  | H : _ = false |- _ => apply Bool.not_true_iff_false in H
  | |- negb _ = true => apply Bool.negb_true_iff
  | |- negb _ = false => apply Bool.negb_false_iff
  | |- _ = false => apply Bool.not_true_iff_false
  end;
  repeat (rewrite Bool.orb_true_iff in * || rewrite Bool.andb_true_iff in *
          || rewrite Z.ltb_lt in * || rewrite Z.eqb_eq in *);
  try discriminate; try lia.

(** ** Monotonicity and range of the chemical score *)

Section ChemicalScore.

Local Open Scope float_scope.
Import Analyzer.

Ltac branch' :=
  match goal with
  | |- context [if ?c then _ else _] => destruct c eqn:?; cbv beta iota
  end.

Lemma cpt_points_antitone (c1 c2 : float) :
  (c1 <=? c2) = true -> (Stated.cpt_points c2 <= Stated.cpt_points c1)%Z.
Proof.
  intro Hle. unfold Stated.cpt_points.
  repeat branch'; try lia; exfalso; float_order.
Qed.

Lemma li_points_monotone (l1 l2 : float) :
  (l1 <=? l2) = true -> (Stated.li_points l1 <= Stated.li_points l2)%Z.
Proof.
  intro Hle. unfold Stated.li_points.
  repeat branch'; try lia; exfalso; float_order.
Qed.

Lemma wits_points_monotone (w1 w2 : float) :
  (w1 <=? w2) = true -> (Stated.wits_points w1 <= Stated.wits_points w2)%Z.
Proof.
  intro Hle. unfold Stated.wits_points.
  repeat branch'; try lia; exfalso; float_order.
Qed.

Lemma ambient_points_monotone (t1 t2 : float) :
  (t1 <=? t2) = true ->
  Z.le (if 30 <? t1 then 15%Z else 0%Z) (if 30 <? t2 then 15%Z else 0%Z).
Proof.
  intro Ht. repeat branch'; try lia; exfalso; float_order.
Qed.

Lemma ventilation_points_antitone (v1 v2 : float) :
  (v2 <=? v1) = true ->
  Z.le (if v1 <? 0.5 then 15%Z else 0%Z) (if v2 <? 0.5 then 15%Z else 0%Z).
Proof.
  intro Hv. repeat branch'; try lia; exfalso; float_order.
Qed.

Lemma environment_points_monotone (t1 t2 v1 v2 : float) :
  (t1 <=? t2) = true -> (v2 <=? v1) = true ->
  (Stated.environment_points t1 v1 <= Stated.environment_points t2 v2)%Z.
Proof.
  intros Ht Hv. unfold Stated.environment_points.
  pose proof (ambient_points_monotone t1 t2 Ht).
  pose proof (ventilation_points_antitone v1 v2 Hv). lia.
Qed.

(** A float above a non-negative constant is not zero. *)
Lemma above_nonneg_truthy (k x : float) :
  (0 <=? k) = true -> (k <? x) = true -> PyFloat.truthy x = true.
Proof. intros Hk Hx. float_order. Qed.

Lemma band_points_positive (v : float) :
  (0 < Stated.cpt_points v)%Z /\ (0 < Stated.li_points v)%Z
  /\ (0 < Stated.wits_points v)%Z.
Proof.
  unfold Stated.cpt_points, Stated.li_points, Stated.wits_points.
  repeat split; repeat branch'; lia.
Qed.

(** What an index contributes once [if v:] has looked at it. *)
Lemma present_drop_zero (points : float -> Z) (x : float) :
  Stated.present points (Stated.drop_zero (Some x))
  = if PyFloat.truthy x then points x else 0%Z.
Proof.
  unfold Stated.drop_zero, PyFloat.truthy_opt.
  destruct (PyFloat.truthy x); reflexivity.
Qed.

(** X1: a lower crossing point temperature never lowers the chemical
    score: for non-zero [c1 <= c2], and all other inputs equal, the score
    with [c2] is at most the score with [c1]. *)
Theorem lower_cpt_never_scores_less (c1 c2 : float)
    (li wits oi : option float) (ambient_temp ventilation_rate : float) :
  (c1 <=? c2) = true -> PyFloat.truthy c1 = true ->
  (risk_score (risk_assessment (Some c2) li wits oi ambient_temp ventilation_rate)
   <= risk_score
        (risk_assessment (Some c1) li wits oi ambient_temp ventilation_rate))%Z.
Proof.
  intros Hle Hnz. rewrite !risk_score_drops_zero.
  unfold Stated.chemical_score. rewrite !present_drop_zero, Hnz.
  pose proof (cpt_points_antitone c1 c2 Hle).
  pose proof (band_points_positive c1) as (? & _).
  destruct (PyFloat.truthy c2); lia.
Qed.

Lemma lower_cpt_never_scores_less_witness :
  Z.le (risk_score (risk_assessment (Some 155) None None None 25 1))
       (risk_score (risk_assessment (Some 135) None None None 25 1)).
Proof.
  apply (lower_cpt_never_scores_less 135 155 None None None 25 1);
    reflexivity.
Defined.

(** X2: a higher liability index, a higher WITS index, a higher ambient
    temperature and a lower ventilation rate never lower the chemical
    score, provided the higher indices are not zero. *)
Theorem riskier_inputs_never_score_less (cpt oi : option float)
    (li1 li2 wits1 wits2 t1 t2 v1 v2 : float) :
  (li1 <=? li2) = true -> PyFloat.truthy li2 = true ->
  (wits1 <=? wits2) = true -> PyFloat.truthy wits2 = true ->
  (t1 <=? t2) = true -> (v2 <=? v1) = true ->
  (risk_score (risk_assessment cpt (Some li1) (Some wits1) oi t1 v1)
   <= risk_score (risk_assessment cpt (Some li2) (Some wits2) oi t2 v2))%Z.
Proof.
  intros Hli Hli2 Hw Hw2 Ht Hv. rewrite !risk_score_drops_zero.
  unfold Stated.chemical_score. rewrite !present_drop_zero, Hli2, Hw2.
  pose proof (li_points_monotone li1 li2 Hli).
  pose proof (wits_points_monotone wits1 wits2 Hw).
  pose proof (environment_points_monotone t1 t2 v1 v2 Ht Hv).
  pose proof (band_points_positive li2) as (_ & ? & _).
  pose proof (band_points_positive wits2) as (_ & _ & ?).
  destruct (PyFloat.truthy li1), (PyFloat.truthy wits1); lia.
Qed.

Lemma riskier_inputs_never_score_less_witness :
  Z.le (risk_score (risk_assessment (Some 143) (Some 0.5) (Some 1) None 25 1))
       (risk_score (risk_assessment (Some 143) (Some 3) (Some 6) None 35 0.2)).
Proof.
  apply (riskier_inputs_never_score_less (Some 143) None 0.5 3 1 6 25 35 1 0.2);
    reflexivity.
Defined.

(** X3: the chemical score lies in [0, 115] and is not capped at 100: a
    CPT below 140, a liability index above 2, a WITS index above 5, an
    ambient temperature above 30 and a ventilation rate below 0.5 together
    score 115, which is CRITICAL. *)
Theorem chemical_score_reaches_115 :
  (forall cpt li wits oi ambient_temp ventilation_rate,
     (0 <= risk_score
             (risk_assessment cpt li wits oi ambient_temp ventilation_rate)
      <= 115)%Z)
  /\ (forall cpt li wits oi ambient_temp ventilation_rate,
       PyFloat.truthy cpt = true -> (cpt <? 140) = true ->
       (2 <? li) = true -> (5 <? wits) = true ->
       (30 <? ambient_temp) = true -> (ventilation_rate <? 0.5) = true ->
       let r := risk_assessment (Some cpt) (Some li) (Some wits) oi
                  ambient_temp ventilation_rate in
       risk_score r = 115%Z /\ overall_risk r = CRITICAL)
  /\ risk_score (risk_assessment (Some 130) (Some 3) (Some 6) None 35 0.2)
     = 115%Z.
Proof.
  split; [intros; apply risk_score_range |]. split; [| reflexivity].
  intros cpt li wits oi ambient_temp ventilation_rate Hc H140 Hli Hw Ht Hv.
  assert (Hli0 : PyFloat.truthy li = true)
    by (apply (above_nonneg_truthy 2 li); [reflexivity | exact Hli]).
  assert (Hw0 : PyFloat.truthy wits = true)
    by (apply (above_nonneg_truthy 5 wits); [reflexivity | exact Hw]).
  cbv zeta.
  unfold risk_assessment, chemical_tally, if_truthy.
  rewrite Hc, Hli0, Hw0, H140, Hli, Hw, Ht, Hv. split; reflexivity.
Qed.

End ChemicalScore.

(** ** The factor list explains the score *)

Section FactorPoints.

Local Open Scope float_scope.
Import Analyzer.

Ltac branch' :=
  match goal with
  | |- context [if ?c then _ else _] => destruct c eqn:?; cbv beta iota
  end.

Lemma total_points_app (l : list risk_factor) (f : risk_factor) :
  total_points (l ++ [f]) = (total_points l + factor_points f)%Z.
Proof.
  unfold total_points. induction l as [| g l IH]; cbn; [lia |].
  cbn in IH. rewrite IH. lia.
Qed.

Lemma explained_flag (n : nat) (f : risk_factor) (points : Z) (st : tally) :
  factor_points f = points -> explained n st -> explained (S n) (flag f points st).
Proof.
  intros Hp [Hs Hl]. unfold explained, flag. cbn [fst snd]. split.
  - rewrite total_points_app, Hs, Hp. reflexivity.
  - rewrite length_app. cbn. lia.
Qed.

Lemma explained_skip (n : nat) (st : tally) :
  explained n st -> explained (S n) st.
Proof. intros [Hs Hl]. split; [assumption | lia]. Qed.

Lemma explained_if_truthy (n : nat) (v : option float)
    (block : float -> tally -> tally) (st : tally) :
  (forall x st', explained n st' -> explained (S n) (block x st')) ->
  explained n st -> explained (S n) (if_truthy v block st).
Proof.
  intros Hblock Hst. unfold if_truthy.
  destruct v as [x|]; [destruct (PyFloat.truthy x) |];
    auto using explained_skip.
Qed.

Lemma chemical_tally_explained (cpt li wits : option float)
    (ambient_temp ventilation_rate : float) :
  explained 5 (chemical_tally cpt li wits ambient_temp ventilation_rate).
Proof.
  unfold chemical_tally. cbv zeta.
  repeat match goal with
  | |- explained (S _) (if_truthy _ _ _) =>
      apply explained_if_truthy;
      [intros x st' Hst'; repeat branch';
       (apply explained_flag; [reflexivity | exact Hst']) |]
  | |- explained (S _) (if _ then flag _ _ _ else _) =>
      branch'; [apply explained_flag; [reflexivity |] | apply explained_skip]
  end.
  all: split; cbn; lia.
Qed.

(** X4: the chemical scorer's score is the sum of the points of the risk
    factors it lists, and it lists at most five of them. *)
Theorem risk_score_explained_by_factors (cpt li wits oi : option float)
    (ambient_temp ventilation_rate : float) :
  let r := risk_assessment cpt li wits oi ambient_temp ventilation_rate in
  risk_score r = total_points (risk_factors r)
  /\ (List.length (risk_factors r) <= 5)%nat.
Proof.
  cbv zeta.
  pose proof (chemical_tally_explained cpt li wits ambient_temp
                ventilation_rate) as [Hs Hl].
  rewrite risk_score_tally.
  replace (risk_factors
             (risk_assessment cpt li wits oi ambient_temp ventilation_rate))
    with (fst (chemical_tally cpt li wits ambient_temp ventilation_rate)).
  - split; assumption.
  - unfold risk_assessment.
    destruct (chemical_tally cpt li wits ambient_temp ventilation_rate)
      as [factors score]. cbn [fst snd].
    destruct (80 <=? score)%Z; [reflexivity |].
    destruct (60 <=? score)%Z; [reflexivity |].
    destruct (40 <=? score)%Z; reflexivity.
Qed.

Lemma thermal_tally_explained (stats : Thermal.temp_stats) :
  explained 4 (Thermal.thermal_tally stats).
Proof.
  unfold Thermal.thermal_tally. cbv zeta.
  repeat match goal with
  | |- explained (S _) (if _ then _ else _) =>
      branch'; [apply explained_flag; [reflexivity |] |]
  | |- explained (S _) ?st => apply explained_skip
  end.
  all: split; cbn; lia.
Qed.

(** X5: the thermal scorer's bands add up to at most 90, so its clamp at
    100 never changes the score: the score is the sum of the four bands, it
    is the sum of the points of the at most four listed factors, and 90 is
    reached. *)
Theorem thermal_score_never_clamped :
  (forall (map : Type) (temperature_map : map) (stats : Thermal.temp_stats),
     let r := Thermal.assess_thermal_risk temperature_map stats in
     Thermal.thermal_risk_score r = Stated.thermal_band_sum stats
     /\ Thermal.thermal_risk_score r
        = total_points (Thermal.thermal_risk_factors r)
     /\ (List.length (Thermal.thermal_risk_factors r) <= 4)%nat
     /\ (0 <= Thermal.thermal_risk_score r <= 90)%Z)
  /\ exists stats,
       Thermal.thermal_risk_score (Thermal.assess_thermal_risk tt stats) = 90%Z.
Proof.
  split.
  - intros map temperature_map stats. cbv zeta.
    unfold Thermal.assess_thermal_risk.
    cbn [Thermal.thermal_risk_score Thermal.thermal_risk_factors].
    pose proof (thermal_tally_explained stats) as [Hs Hl].
    pose proof (thermal_band_sum_range stats) as Hr.
    rewrite <- Hs, thermal_tally_sum.
    repeat split; try lia.
  - exists {| Thermal.min_temp := 20; Thermal.max_temp := 130;
              Thermal.avg_temp := 50; Thermal.hot_spot_count := 11;
              Thermal.critical_area_percentage := 30 |}.
    reflexivity.
Qed.

End FactorPoints.

(** ** NaN inputs *)

Section NaN.

Local Open Scope float_scope.
Import Analyzer.

Lemma is_nan_nan_float (x : float) : is_nan x = true -> nan_float x.
Proof.
  unfold is_nan, nan_float. rewrite eqb_spec. unfold SFeqb.
  destruct (Prim2SF x) as [s | s | | s m e]; cbn; try discriminate;
    try reflexivity.
  - destruct s; discriminate.
  - destruct s; rewrite Z.compare_refl;
      change (PosDef.Pos.compare_cont Eq) with Pos.compare;
      rewrite Pos.compare_refl; discriminate.
Qed.

Lemma nan_add_l (x y : float) : nan_float x -> nan_float (x + y).
Proof. unfold nan_float. intro H. now rewrite add_spec, H. Qed.

Lemma nan_add_r (x y : float) : nan_float y -> nan_float (x + y).
Proof.
  unfold nan_float. intro H. rewrite add_spec, H.
  now destruct (Prim2SF x).
Qed.

Lemma nan_sub_l (x y : float) : nan_float x -> nan_float (x - y).
Proof. unfold nan_float. intro H. now rewrite sub_spec, H. Qed.

Lemma nan_sub_r (x y : float) : nan_float y -> nan_float (x - y).
Proof.
  unfold nan_float. intro H. rewrite sub_spec, H.
  now destruct (Prim2SF x).
Qed.

Lemma nan_mul_r (x y : float) : nan_float y -> nan_float (x * y).
Proof.
  unfold nan_float. intro H. rewrite mul_spec, H.
  now destruct (Prim2SF x).
Qed.

Lemma nan_not_below (x k : float) : nan_float x -> (x <? k) = false.
Proof. unfold nan_float. intro H. now rewrite ltb_spec, H. Qed.

Lemma nan_not_above (x k : float) : nan_float x -> (k <? x) = false.
Proof.
  unfold nan_float. intro H. rewrite ltb_spec, H. unfold SFltb.
  now destruct (Prim2SF k).
Qed.

(** X6: if any of the four inputs is NaN, [crossing_point_temperature]
    returns 200, the top of its range: NaN fails the test [cpt < 200] of
    [min(200, cpt)]. *)
Theorem crossing_point_temperature_of_nan
    (moisture volatile_matter ash fixed_carbon : float) :
  (is_nan moisture || is_nan volatile_matter || is_nan ash
   || is_nan fixed_carbon) = true ->
  crossing_point_temperature moisture volatile_matter ash fixed_carbon
  = Some 200.
Proof.
  intro Hnan.
  assert (Hany : nan_float moisture \/ nan_float volatile_matter
                 \/ nan_float ash \/ nan_float fixed_carbon).
  { repeat (apply Bool.orb_true_iff in Hnan; destruct Hnan as [Hnan | Hnan]);
      auto using is_nan_nan_float. }
  unfold crossing_point_temperature.
  rewrite nan_not_above.
  - cbn [bind]. unfold PyFloat.min. rewrite nan_not_below; [reflexivity |].
    destruct Hany as [H | [H | [H | H]]];
      auto 10 using nan_add_l, nan_add_r, nan_sub_l, nan_sub_r, nan_mul_r.
  - destruct Hany as [H | [H | [H | H]]];
      auto 10 using nan_add_l, nan_add_r.
Qed.

Lemma crossing_point_temperature_of_nan_witness :
  crossing_point_temperature nan 35 15 40 = Some 200.
Proof.
  apply (crossing_point_temperature_of_nan nan 35 15 40). reflexivity.
Defined.

End NaN.

(** [crossing_point_temperature] always returns a value of at least 120. *)
Lemma crossing_point_temperature_total
    (moisture volatile_matter ash fixed_carbon : float) :
  exists c,
    Analyzer.crossing_point_temperature moisture volatile_matter ash
      fixed_carbon = Some c
    /\ (120 <=? c)%float = true.
Proof.
  unfold Analyzer.crossing_point_temperature.
  destruct (100 <? moisture + volatile_matter + ash + fixed_carbon)%float
    eqn:Htotal.
  - rewrite !(div_by_total _ _ Htotal). cbn [Analyzer.bind].
    eexists. split; [reflexivity | apply clamp_120_200].
  - cbn [Analyzer.bind]. eexists. split; [reflexivity | apply clamp_120_200].
Qed.

(** ** Recommendations *)

Section Recommendations.

Import Advice AdviceChecks.
Local Open Scope string_scope.

Lemma avoids_app (c : Ascii.ascii) (a b : string) :
  avoids c (a ++ b) = avoids c a && avoids c b.
Proof.
  induction a as [| x a IH]; cbn; [reflexivity |].
  rewrite IH. now rewrite Bool.andb_assoc.
Qed.

Lemma avoids_uint (c : Ascii.ascii) (d : Decimal.uint) :
  avoids c "0123456789" = true ->
  avoids c (DecimalString.NilEmpty.string_of_uint d) = true.
Proof.
  intro Hc. cbn in Hc.
  repeat (apply Bool.andb_true_iff in Hc; destruct Hc as [? Hc]).
  induction d; cbn; rewrite ?IHd, ?Bool.andb_true_r; assumption || reflexivity.
Qed.

Lemma avoids_str_int (c : Ascii.ascii) (n : Z) :
  avoids c "-0123456789" = true -> avoids c (str_int n) = true.
Proof.
  intro Hc. cbn in Hc. apply Bool.andb_true_iff in Hc as [Hminus Hdigits].
  assert (Hu : forall d, avoids c (DecimalString.NilZero.string_of_uint d) = true).
  { intro d. pose proof (avoids_uint c d Hdigits) as H.
    destruct d; try exact H.
    cbn in Hdigits |- *.
    apply Bool.andb_true_iff in Hdigits as [H0 _]. now rewrite H0. }
  unfold str_int, DecimalString.NilZero.string_of_int.
  destruct (Z.to_int n); [apply Hu |].
  cbn. rewrite Hminus. apply Hu.
Qed.

Lemma avoids_format_1f (c : Ascii.ascii) (x : float) :
  avoids c "-.0123456789naif" = true -> avoids c (format_1f x) = true.
Proof.
  intro Hc.
  assert (Hint : avoids c "-0123456789" = true).
  { cbn in Hc |- *.
    repeat (apply Bool.andb_true_iff in Hc; destruct Hc as [? Hc]).
    repeat (apply Bool.andb_true_iff; split); assumption || reflexivity. }
  unfold format_1f.
  destruct (Prim2SF x) as [s | s | | s m e].
  - cbn in Hc.
    repeat (apply Bool.andb_true_iff in Hc; destruct Hc as [? Hc]).
    destruct s; cbn;
      repeat (apply Bool.andb_true_iff; split); assumption || reflexivity.
  - cbn in Hc.
    repeat (apply Bool.andb_true_iff in Hc; destruct Hc as [? Hc]).
    destruct s; cbn;
      repeat (apply Bool.andb_true_iff; split); assumption || reflexivity.
  - cbn in Hc.
    repeat (apply Bool.andb_true_iff in Hc; destruct Hc as [? Hc]).
    cbn. repeat (apply Bool.andb_true_iff; split); assumption || reflexivity.
  - cbv zeta. rewrite !avoids_app, !avoids_str_int by exact Hint.
    cbn in Hc.
    repeat (apply Bool.andb_true_iff in Hc; destruct Hc as [? Hc]).
    destruct s; cbn;
      repeat (apply Bool.andb_true_iff; split); assumption || reflexivity.
Qed.

(** A stretch of text without the needle's first character hides no
    occurrence of the needle. *)
Lemma contains_skip (c : Ascii.ascii) (needle s rest : string) :
  avoids c s = true ->
  contains (String c needle) (s ++ rest) = contains (String c needle) rest.
Proof.
  induction s as [| a s IH]; intro Hs; [reflexivity |].
  cbn in Hs. apply Bool.andb_true_iff in Hs as [Ha Hs].
  apply Bool.negb_true_iff in Ha.
  cbn [append contains starts_with]. rewrite Ha. cbn [andb orb].
  apply IH, Hs.
Qed.

Lemma append_assoc' (a b c : string) : (a ++ b) ++ c = a ++ (b ++ c).
Proof. induction a as [| x a IH]; cbn; [reflexivity | now rewrite IH]. Qed.

(** The text of one factor holds the needle exactly when the factor is of
    the kind the needle names; the numbers printed inside a thermal text
    are skipped by [contains_skip]. *)
Lemma mismatch_starts_with (needle s rest : string) :
  mismatch needle s = true -> starts_with needle (s ++ rest) = false.
Proof.
  revert s. induction needle as [| a needle IH]; intros s H;
    [destruct s; discriminate H |].
  destruct s as [| b s]; [discriminate H |].
  cbn in H |- *. destruct (Ascii.eqb a b); cbn in H |- *; [| reflexivity].
  apply IH, H.
Qed.

Lemma contains_clear (needle s rest : string) :
  clear_of needle s = true ->
  contains needle (s ++ rest) = contains needle rest.
Proof.
  induction s as [| a s IH]; intro H; [reflexivity |].
  cbn [clear_of] in H. apply Bool.andb_true_iff in H as [Hm Hc].
  change (contains needle (String a s ++ rest))
    with (starts_with needle (String a s ++ rest)
          || contains needle (s ++ rest)).
  rewrite (mismatch_starts_with _ _ _ Hm). cbn [orb]. apply IH, Hc.
Qed.

Lemma starts_with_app (needle s rest : string) :
  starts_with needle s = true -> starts_with needle (s ++ rest) = true.
Proof.
  revert s. induction needle as [| a needle IH]; intros s H;
    [destruct s; reflexivity |].
  destruct s as [| b s]; [discriminate H |].
  cbn in H |- *. apply Bool.andb_true_iff in H as [Hab H].
  rewrite Hab. cbn. apply IH, H.
Qed.

Lemma contains_found (needle s rest : string) :
  contains needle s = true -> contains needle (s ++ rest) = true.
Proof.
  induction s as [| a s IH]; intro H.
  - cbn in H. rewrite Bool.orb_false_r in H.
    destruct needle; [destruct rest; reflexivity | discriminate H].
  - change (contains needle (String a s))
      with (starts_with needle (String a s) || contains needle s) in H.
    change (contains needle (String a s ++ rest))
      with (starts_with needle (String a s ++ rest)
            || contains needle (s ++ rest)).
    apply Bool.orb_true_iff in H as [H | H].
    + now rewrite (starts_with_app _ _ rest H).
    + rewrite (IH H). apply Bool.orb_true_r.
Qed.

(** The quoted text of a factor, when the text is a constant. *)
Lemma repr_then_constant (f : risk_factor) (rest : string) :
  repr_then f rest = ("'" ++ (message f ++ "'")) ++ rest.
Proof. unfold repr_then. now rewrite !append_assoc'. Qed.

(** The quoted text of a factor that prints a number [N] between the
    constants [A] and [B]. *)
Lemma repr_then_number (f : risk_factor) (A N B rest : string) :
  message f = A ++ (N ++ B) ->
  repr_then f rest = ("'" ++ A) ++ (N ++ ((B ++ "'") ++ rest)).
Proof. intro H. unfold repr_then. rewrite H. now rewrite !append_assoc'. Qed.

Ltac one_factor_text :=
  intros f rest; destruct f;
  lazymatch goal with
  | |- context [repr_then (_ _) _] =>
      erewrite repr_then_number by (cbn [message]; reflexivity);
      rewrite contains_clear by (vm_compute; reflexivity);
      rewrite contains_skip
        by (first [apply avoids_format_1f | apply avoids_str_int];
            vm_compute; reflexivity);
      rewrite contains_clear by (vm_compute; reflexivity);
      reflexivity
  | |- _ =>
      rewrite repr_then_constant;
      first [ rewrite contains_clear by (vm_compute; reflexivity); reflexivity
            | rewrite contains_found by (vm_compute; reflexivity); reflexivity ]
  end.

Lemma repr_then_poor_ventilation :
  forall (f : risk_factor) (rest : string),
    contains "Poor Ventilation" (repr_then f rest)
    = is_poor_ventilation f || contains "Poor Ventilation" rest.
Proof. one_factor_text. Qed.

Lemma repr_then_high_ambient :
  forall (f : risk_factor) (rest : string),
    contains "High Ambient Temperature" (repr_then f rest)
    = is_high_ambient f || contains "High Ambient Temperature" rest.
Proof. one_factor_text. Qed.

Lemma items_then_contains (needle : string) (kind : risk_factor -> bool)
    (factors : list risk_factor) (rest : string) :
  (forall f r, contains needle (repr_then f r) = kind f || contains needle r) ->
  (forall r, contains needle (", " ++ r) = contains needle r) ->
  contains needle (items_then factors rest)
  = existsb kind factors || contains needle rest.
Proof.
  intros Hrepr Hsep. induction factors as [| f more IH]; [reflexivity |].
  destruct more as [| g more].
  - cbn [items_then existsb]. rewrite Hrepr. now rewrite Bool.orb_false_r.
  - change (items_then (f :: g :: more) rest)
      with (repr_then f (", " ++ items_then (g :: more) rest)).
    rewrite Hrepr, Hsep, IH. cbn [existsb]. now rewrite Bool.orb_assoc.
Qed.

Lemma str_list_poor_ventilation (factors : list risk_factor) :
  contains "Poor Ventilation" (str_list factors)
  = existsb is_poor_ventilation factors.
Proof.
  unfold str_list.
  change (contains "Poor Ventilation" ("[" ++ items_then factors "]"))
    with (contains "Poor Ventilation" (items_then factors "]")).
  rewrite (items_then_contains _ is_poor_ventilation).
  - cbn. now rewrite Bool.orb_false_r.
  - apply repr_then_poor_ventilation.
  - reflexivity.
Qed.

Lemma str_list_high_ambient (factors : list risk_factor) :
  contains "High Ambient Temperature" (str_list factors)
  = existsb is_high_ambient factors.
Proof.
  unfold str_list.
  change (contains "High Ambient Temperature" ("[" ++ items_then factors "]"))
    with (contains "High Ambient Temperature" (items_then factors "]")).
  rewrite (items_then_contains _ is_high_ambient).
  - cbn. now rewrite Bool.orb_false_r.
  - apply repr_then_high_ambient.
  - reflexivity.
Qed.

Lemma existsb_kind_In (kind : risk_factor -> bool) (f : risk_factor)
    (factors : list risk_factor) :
  (forall g, kind g = true <-> g = f) ->
  existsb kind factors = true <-> In f factors.
Proof.
  intro Hkind. rewrite existsb_exists. split.
  - intros (g & Hin & Hg). apply Hkind in Hg. now subst.
  - intro Hin. exists f. split; [assumption | now apply Hkind].
Qed.

(** X7: the substring tests of [generate_recommendations] on
    [str(risk_factors)] are tests on the kind of the listed factors:
    "Poor Ventilation" occurs exactly when the poor-ventilation factor is
    listed and "High Ambient Temperature" exactly when the high-ambient
    factor is, whatever numbers the thermal factors print. *)
Theorem substring_tests_match_factor_kinds (factors : list risk_factor) :
  (contains "Poor Ventilation" (str_list factors) = true
   <-> In Poor_Ventilation_Risk factors)
  /\ (contains "High Ambient Temperature" (str_list factors) = true
      <-> In High_Ambient_Temperature_Risk factors).
Proof.
  rewrite str_list_poor_ventilation, str_list_high_ambient. split.
  - apply existsb_kind_In. intro g. destruct g; cbn; split; congruence.
  - apply existsb_kind_In. intro g. destruct g; cbn; split; congruence.
Qed.

(** *** What the chemical scorer lists *)

Lemma risk_factors_tally (cpt li wits oi : option float)
    (ambient_temp ventilation_rate : float) :
  Analyzer.risk_factors
    (Analyzer.risk_assessment cpt li wits oi ambient_temp ventilation_rate)
  = fst (Analyzer.chemical_tally cpt li wits ambient_temp ventilation_rate).
Proof.
  unfold Analyzer.risk_assessment.
  destruct (Analyzer.chemical_tally cpt li wits ambient_temp ventilation_rate)
    as [factors score]. cbn [fst snd].
  destruct (80 <=? score)%Z; [reflexivity |].
  destruct (60 <=? score)%Z; [reflexivity |].
  destruct (40 <=? score)%Z; reflexivity.
Qed.

Lemma existsb_flag (kind : risk_factor -> bool) (c : bool) (f : risk_factor)
    (points : Z) (st : tally) :
  existsb kind (fst (if c then flag f points st else st))
  = existsb kind (fst st) || (c && kind f).
Proof.
  destruct c; cbn [andb fst flag].
  - rewrite existsb_app. cbn. now rewrite Bool.orb_false_r.
  - now rewrite Bool.orb_false_r.
Qed.

Lemma existsb_if_truthy (kind : risk_factor -> bool) (v : option float)
    (block : float -> tally -> tally) (st : tally) :
  (forall x st', existsb kind (fst (block x st')) = existsb kind (fst st')) ->
  existsb kind (fst (Analyzer.if_truthy v block st)) = existsb kind (fst st).
Proof.
  intro Hblock. unfold Analyzer.if_truthy.
  destruct v as [x|]; [destruct (PyFloat.truthy x) |]; auto.
Qed.

Ltac index_blocks :=
  repeat (rewrite existsb_if_truthy;
          [| intros x st';
             repeat match goal with
             | |- context [if ?c then _ else _] => destruct c
             end;
             cbn [fst flag]; rewrite existsb_app; cbn;
             now rewrite Bool.orb_false_r]).

Lemma lists_poor_ventilation (cpt li wits : option float)
    (ambient_temp ventilation_rate : float) :
  existsb is_poor_ventilation
    (fst (Analyzer.chemical_tally cpt li wits ambient_temp ventilation_rate))
  = (ventilation_rate <? 0.5)%float.
Proof.
  unfold Analyzer.chemical_tally. cbv zeta.
  rewrite !existsb_flag. index_blocks.
  cbn. now rewrite Bool.andb_false_r, Bool.andb_true_r.
Qed.

Lemma lists_high_ambient (cpt li wits : option float)
    (ambient_temp ventilation_rate : float) :
  existsb is_high_ambient
    (fst (Analyzer.chemical_tally cpt li wits ambient_temp ventilation_rate))
  = (30 <? ambient_temp)%float.
Proof.
  unfold Analyzer.chemical_tally. cbv zeta.
  rewrite !existsb_flag. index_blocks.
  cbn. now rewrite Bool.andb_false_r, Bool.andb_true_r, Bool.orb_false_r.
Qed.

Lemma advises_In (advice : string) (recommendations : list string) :
  advises advice recommendations = true <-> In advice recommendations.
Proof.
  unfold advises. rewrite existsb_exists. split.
  - intros (x & Hin & Hx). apply String.eqb_eq in Hx. now subst.
  - intro Hin. exists advice. split; [assumption | apply String.eqb_refl].
Qed.

Ltac recommendation_cases level cpt :=
  unfold generate_recommendations;
  rewrite str_list_poor_ventilation, str_list_high_ambient;
  match goal with
  | |- context [existsb is_poor_ventilation ?l] =>
      generalize (existsb is_poor_ventilation l);
      generalize (existsb is_high_ambient l)
  end;
  intros ambient poor;
  destruct cpt as [c|];
  [unfold relocation_due; destruct (PyFloat.truthy c && (c <? 145)%float) |];
  destruct level, poor, ambient.

(** Which of the two environment advices a call issues. *)
Lemma environment_advice (level : risk_level) (factors : list risk_factor)
    (cpt : option float) :
  advises ventilation_advice (generate_recommendations level factors cpt)
  = existsb is_poor_ventilation factors
  /\ advises cooling_advice (generate_recommendations level factors cpt)
     = existsb is_high_ambient factors.
Proof.
  recommendation_cases level cpt; vm_compute; split; reflexivity.
Qed.

(** X8: on the manual path the advice to install or upgrade ventilation is
    issued exactly when the ventilation rate is below 0.5, and the advice
    to cool exactly when the ambient temperature is above 30. *)
Theorem api_analyze_environment_advice
    (moisture volatile_matter ash fixed_carbon oxygen
     ambient_temp ventilation_rate : float) :
  let a := api_analyze moisture volatile_matter ash fixed_carbon oxygen
             ambient_temp ventilation_rate in
  (In ventilation_advice (recommendations a)
   <-> (ventilation_rate <? 0.5)%float = true)
  /\ (In cooling_advice (recommendations a)
      <-> (30 <? ambient_temp)%float = true).
Proof.
  cbv zeta. unfold api_analyze. cbn [recommendations].
  rewrite <- !advises_In.
  match goal with
  | |- context [generate_recommendations ?l ?f ?c] =>
      destruct (environment_advice l f c) as [Hv Ha]
  end.
  rewrite Hv, Ha, risk_factors_tally, lists_poor_ventilation,
    lists_high_ambient.
  split; reflexivity.
Qed.

Lemma same_list_eq (a b : list string) : same_list a b = true <-> a = b.
Proof.
  unfold same_list. destruct (list_eq_dec string_dec a b); split;
    congruence.
Qed.

(** X9: [generate_recommendations] never returns an empty list and never
    more than twelve items; a CRITICAL or HIGH category gets at least nine,
    a MODERATE one at least four; the three default items are returned
    exactly when the category is LOW, neither environment factor is listed
    and the CPT is missing, zero, NaN or at least 145. *)
Theorem recommendations_never_empty (level : risk_level)
    (factors : list risk_factor) (cpt : option float) :
  let r := generate_recommendations level factors cpt in
  (1 <= List.length r <= 12)%nat
  /\ (level = CRITICAL \/ level = HIGH -> (9 <= List.length r)%nat)
  /\ (level = MODERATE -> (4 <= List.length r)%nat)
  /\ (r = default_advice
      <-> level = LOW
          /\ existsb is_poor_ventilation factors = false
          /\ existsb is_high_ambient factors = false
          /\ relocation_due cpt = false).
Proof.
  cbv zeta. recommendation_cases level cpt;
    rewrite <- same_list_eq; vm_compute;
    repeat split; intros; try lia;
    repeat match goal with
    | H : _ \/ _ |- _ => destruct H
    | H : _ /\ _ |- _ => destruct H
    end;
    try discriminate; try reflexivity.
Qed.

Lemma no_thermal_advice_from_generate (level : risk_level)
    (factors : list risk_factor) (cpt : option float) (advice : string) :
  In advice thermal_advice ->
  advises advice (generate_recommendations level factors cpt) = false.
Proof.
  intro Hin. unfold thermal_advice in Hin. cbn [In] in Hin.
  recommendation_cases level cpt;
    destruct Hin as [<- | [<- | [<- | []]]]; vm_compute; reflexivity.
Qed.

Lemma hot_maximum (mx : float) :
  (0 < Stated.max_temp_points mx)%Z -> (50 <? mx)%float = true.
Proof.
  unfold Stated.max_temp_points.
  destruct (120 <? mx)%float eqn:H120; [intros _; float_order |].
  destruct (80 <? mx)%float eqn:H80; [intros _; float_order |].
  destruct (50 <? mx)%float; [reflexivity | lia].
Qed.

Lemma other_thermal_bands (stats : Thermal.temp_stats) :
  (Stated.avg_temp_points (Thermal.avg_temp stats)
   + Stated.critical_area_points (Thermal.critical_area_percentage stats)
   + Stated.hot_spot_points (Thermal.hot_spot_count stats) <= 50)%Z.
Proof.
  unfold Stated.avg_temp_points, Stated.critical_area_points,
    Stated.hot_spot_points.
  repeat match goal with
  | |- context [if ?c then _ else _] => destruct c
  end; lia.
Qed.

(** X10: on the image path the three thermal recommendations are appended
    exactly when the thermal score exceeds 50, and that happens only if the
    maximum temperature exceeds 50: the other three bands add up to 50 at
    most. *)
Theorem thermal_advice_needs_hot_maximum {map : Type}
    (combined : Combined.combined_risk_assessment) (temperature_map : map)
    (stats : Thermal.temp_stats) (cpt : option float) (advice : string) :
  In advice thermal_advice ->
  let thermal := Thermal.assess_thermal_risk temperature_map stats in
  (In advice (thermal_recommendations combined thermal cpt)
   <-> (50 < Thermal.thermal_risk_score thermal)%Z)
  /\ ((50 < Thermal.thermal_risk_score thermal)%Z ->
      (50 <? Thermal.max_temp stats)%float = true).
Proof.
  intros Hadvice thermal. split.
  - unfold thermal_recommendations. rewrite <- Z.ltb_lt.
    destruct (50 <? Thermal.thermal_risk_score thermal)%Z.
    + split; [reflexivity |]. intros _. apply in_or_app. now right.
    + rewrite <- advises_In.
      now rewrite (no_thermal_advice_from_generate _ _ _ _ Hadvice).
  - subst thermal. unfold Thermal.assess_thermal_risk.
    cbn [Thermal.thermal_risk_score]. rewrite thermal_tally_sum.
    intro Hscore. apply hot_maximum.
    unfold Stated.thermal_band_sum in Hscore.
    pose proof (other_thermal_bands stats). lia.
Qed.

Lemma thermal_advice_needs_hot_maximum_witness :
  (50 <? 130)%float = true.
Proof.
  apply (thermal_advice_needs_hot_maximum
           {| Combined.overall_risk := LOW; Combined.risk_score := 0%float;
              Combined.risk_factors := []; Combined.color := success;
              Combined.standard_risk_score := 0;
              Combined.thermal_risk_score := 90 |}
           tt
           {| Thermal.min_temp := 20; Thermal.max_temp := 130;
              Thermal.avg_temp := 50; Thermal.hot_spot_count := 11;
              Thermal.critical_area_percentage := 30 |}
           None
           "Implement continuous thermal monitoring with infrared cameras").
  - cbn. left. reflexivity.
  - vm_compute. reflexivity.
Defined.

(** *** The manual path always has a CPT *)

Lemma headed_flag (f g : risk_factor) (points : Z) (st : tally) :
  headed f st -> headed f (flag g points st).
Proof. intros [more H]. exists (more ++ [g])%list. cbn. now rewrite H. Qed.

Lemma headed_if_flag (f g : risk_factor) (c : bool) (points : Z) (st : tally) :
  headed f st -> headed f (if c then flag g points st else st).
Proof. destruct c; auto using headed_flag. Qed.

Lemma headed_if_truthy (f : risk_factor) (v : option float)
    (block : float -> tally -> tally) (st : tally) :
  (forall x st', headed f st' -> headed f (block x st')) ->
  headed f st -> headed f (Analyzer.if_truthy v block st).
Proof.
  intros Hblock Hst. unfold Analyzer.if_truthy.
  destruct v as [x|]; [destruct (PyFloat.truthy x) |]; auto.
Qed.

Lemma chemical_tally_headed (c : float) (li wits : option float)
    (ambient_temp ventilation_rate : float) :
  PyFloat.truthy c = true ->
  exists f, is_cpt_factor f = true
            /\ headed f (Analyzer.chemical_tally (Some c) li wits
                           ambient_temp ventilation_rate).
Proof.
  intro Hc. unfold Analyzer.chemical_tally. cbv zeta.
  cbn [Analyzer.if_truthy]. rewrite Hc.
  match goal with
  | |- context [Analyzer.if_truthy li _ ?st1] =>
      assert (H1 : exists f, is_cpt_factor f = true /\ headed f st1)
  end.
  { repeat match goal with
    | |- context [if ?b then _ else _] => destruct b
    end; eexists; (split; [| exists []; reflexivity]); reflexivity. }
  destruct H1 as (f & Hf & H1). exists f. split; [exact Hf |].
  apply headed_if_flag, headed_if_flag.
  apply headed_if_truthy;
    [intros; repeat match goal with
             | |- context [if ?b then _ else _] => destruct b
             end; now apply headed_flag |].
  apply headed_if_truthy;
    [intros; repeat match goal with
             | |- context [if ?b then _ else _] => destruct b
             end; now apply headed_flag |].
  exact H1.
Qed.

Lemma at_least_120_truthy (c : float) :
  (120 <=? c)%float = true -> PyFloat.truthy c = true.
Proof. intro H. float_order. Qed.

Lemma band_points_bounds (v : option float) :
  (0 <= Stated.present Stated.li_points (Stated.drop_zero v) <= 25)%Z
  /\ (0 <= Stated.present Stated.wits_points (Stated.drop_zero v) <= 20)%Z.
Proof.
  unfold Stated.li_points, Stated.wits_points.
  destruct (Stated.drop_zero v); cbn;
    repeat match goal with
    | |- context [if ?b then _ else _] => destruct b
    end; lia.
Qed.

(** X11: on the manual path the CPT is always present and never zero, so
    a CPT factor always heads the factor list and the score is at least 10
    (and at most 115), whatever the seven inputs are. *)
Theorem api_analyze_always_scores_cpt
    (moisture volatile_matter ash fixed_carbon oxygen
     ambient_temp ventilation_rate : float) :
  let a := api_analyze moisture volatile_matter ash fixed_carbon oxygen
             ambient_temp ventilation_rate in
  (exists c, cpt a = Some c /\ PyFloat.truthy c = true)
  /\ (exists f more,
        Analyzer.risk_factors (risk_assessment a) = f :: more
        /\ is_cpt_factor f = true)
  /\ (10 <= Analyzer.risk_score (risk_assessment a) <= 115)%Z.
Proof.
  cbv zeta. unfold api_analyze. cbn [cpt risk_assessment].
  pose proof (crossing_point_temperature_total moisture volatile_matter ash
                fixed_carbon) as (c & Hcpt & Hlo).
  rewrite Hcpt. pose proof (at_least_120_truthy c Hlo) as Hc.
  split; [exists c; auto |]. split.
  - rewrite risk_factors_tally.
    destruct (chemical_tally_headed c
                (Analyzer.liability_index moisture volatile_matter ash)
                (Analyzer.wits_index moisture volatile_matter ash oxygen)
                ambient_temp ventilation_rate Hc) as (f & Hf & more & Hm).
    exists f, more. auto.
  - rewrite risk_score_drops_zero. unfold Stated.chemical_score.
    rewrite present_drop_zero, Hc.
    pose proof (band_points_bounds
                  (Analyzer.liability_index moisture volatile_matter ash))
      as [Hli _].
    pose proof (band_points_bounds
                  (Analyzer.wits_index moisture volatile_matter ash oxygen))
      as [_ Hw].
    unfold Stated.cpt_points, Stated.environment_points.
    repeat match goal with
    | |- context [if ?b then _ else _] => destruct b
    end; lia.
Qed.

End Recommendations.

(** ** The environment generator *)

Section EnvironmentGenerator.

Import Exact Environment.
Local Open Scope Q_scope.

Lemma get_scenario_cases (name : string) :
  let sc := get scenarios name normal in
  sc = normal \/ sc = get scenarios "hot_day" normal
  \/ sc = get scenarios "humid" normal
  \/ sc = get scenarios "poor_ventilation" normal.
Proof.
  cbv zeta. unfold scenarios. cbn [get].
  destruct (String.eqb name "normal"); [auto |].
  destruct (String.eqb name "hot_day"); [auto |].
  destruct (String.eqb name "humid"); [auto |].
  destruct (String.eqb name "poor_ventilation"); auto.
Qed.

(** X12: a scenario name outside the catalogue is generated exactly like
    [normal]. *)
Theorem unknown_scenario_is_normal (features : option image_features)
    (name : string) (s : source) :
  name <> "hot_day"%string -> name <> "humid"%string ->
  name <> "poor_ventilation"%string ->
  generate_environmental_parameters features name s
  = generate_environmental_parameters features "normal" s.
Proof.
  intros Hhot Hhumid Hpoor. unfold generate_environmental_parameters.
  replace (get scenarios name normal) with normal; [reflexivity |].
  unfold scenarios. cbn [get].
  destruct (String.eqb name "normal"); [reflexivity |].
  apply String.eqb_neq in Hhot, Hhumid, Hpoor.
  now rewrite Hhot, Hhumid, Hpoor.
Qed.

Lemma unknown_scenario_is_normal_witness :
  generate_environmental_parameters None "tropical"
    {| floats := Samples.zeros; ints := fun _ _ => 0%Z |}
  = generate_environmental_parameters None "normal"
      {| floats := Samples.zeros; ints := fun _ _ => 0%Z |}.
Proof.
  apply (unknown_scenario_is_normal None "tropical"); discriminate.
Defined.

Lemma wind_product (w d : Q) :
  0.05 <= w -> w <= 2 -> 0.7 <= d -> d <= 0.9 ->
  0.035 <= w * d /\ w * d <= 2.
Proof. intros. split; nra. Qed.

Lemma generated_plausible (features : option image_features)
    (name : string) (s : source) :
  fair s ->
  plausible (fst (generate_environmental_parameters features name s)).
Proof.
  intros [Hf Hi].
  pose proof (Hf 0%nat); pose proof (Hf 1%nat); pose proof (Hf 2%nat);
  pose proof (Hf 3%nat); pose proof (Hf 4%nat); pose proof (Hf 5%nat);
  pose proof (Hf 6%nat); pose proof (Hf 7%nat); pose proof (Hf 8%nat).
  pose proof (Hi 0%nat 30%Z ltac:(lia)).
  unfold generate_environmental_parameters.
  destruct (get_scenario_cases name) as [-> | [-> | [-> | ->]]];
    unfold base_parameters, adjust_for_features, when, uniform, lift,
      Exact.uniform, random, randint, bind, ret, Exact.bind, Exact.ret,
      plausible;
    destruct features as [features|];
    repeat match goal with
    | |- context [if ?c then _ else _] => destruct c
    end;
    cbn -[Z.add]; change (30 - 1 + 1)%Z with 30%Z;
    repeat split; try lra; try lia;
    match goal with
    | |- _ <= ?w * ?d => apply (wind_product w d); lra
    | |- ?w * ?d <= _ => apply (wind_product w d); lra
    end.
Qed.

Lemma fair_calm : fair Sources.calm.
Proof.
  split; [intro n; split; [discriminate | reflexivity] |].
  intros i n Hn. cbn. lia.
Defined.

Lemma fair_eager : fair Sources.eager.
Proof.
  split; [intro n; split; [discriminate | reflexivity] |].
  intros i n Hn. cbn. lia.
Defined.

(** X13: whatever the scenario name, the features and the draws, the
    generated environment keeps physical bounds: ambient temperature in
    [20, 53], humidity in [20, 95], wind speed in (0, 2] (so never
    zero), oxygen in [19.5, 21], pressure in [98, 102], pile height in
    [2, 10] and storage duration in 1..30 days. *)
Theorem generated_environment_bounds (features : option image_features)
    (name : string) (s : source) :
  fair s ->
  let e := fst (generate_environmental_parameters features name s) in
  (20 <= ambient_temperature e /\ ambient_temperature e <= 53)
  /\ (20 <= relative_humidity e /\ relative_humidity e <= 95)
  /\ (0 < wind_speed e /\ wind_speed e <= 2)
  /\ (19.5 <= oxygen_content e /\ oxygen_content e <= 21)
  /\ (98 <= atmospheric_pressure e /\ atmospheric_pressure e <= 102)
  /\ (2 <= pile_height e /\ pile_height e <= 10)
  /\ (1 <= storage_duration e <= 30)%Z.
Proof.
  intros Hs e.
  destruct (generated_plausible features name s Hs)
    as (Ht & Hh & [Hw0 Hw1] & Ho & Hp & Hph & Hd).
  fold e in Ht, Hh, Hw0, Hw1, Ho, Hp, Hph, Hd.
  repeat split; try tauto; try lra; lia.
Qed.

Lemma generated_environment_bounds_witness :
  0 < wind_speed
        (fst (generate_environmental_parameters None "poor_ventilation"
                Sources.calm)).
Proof.
  pose proof (generated_environment_bounds None "poor_ventilation"
                Sources.calm fair_calm) as H.
  cbv zeta in H. exact (proj1 (proj1 (proj2 (proj2 H)))).
Defined.

(** X14: without image features the four scenario-dependent parameters
    stay inside the ranges of the scenario used; with features there is no
    re-clamping, and a dark image on a hot day can push the ambient
    temperature above the scenario's 45. *)
Theorem scenario_ranges_without_features (name : string) (s : source) :
  fair s ->
  let sc := get scenarios name normal in
  let e := fst (generate_environmental_parameters None name s) in
  (within (temp_range sc) (ambient_temperature e)
   /\ within (humidity_range sc) (relative_humidity e)
   /\ within (wind_range sc) (wind_speed e)
   /\ within (oxygen_range sc) (oxygen_content e))
  /\ exists features s',
       fair s'
       /\ 45 < ambient_temperature
                 (fst (generate_environmental_parameters (Some features)
                         "hot_day" s')).
Proof.
  intros [Hf Hi]. cbv zeta. split.
  - pose proof (Hf 0%nat); pose proof (Hf 1%nat); pose proof (Hf 2%nat);
    pose proof (Hf 3%nat).
    unfold generate_environmental_parameters.
    destruct (get_scenario_cases name) as [-> | [-> | [-> | ->]]];
      unfold base_parameters, adjust_for_features, uniform, lift,
        Exact.uniform, random, randint, bind, ret, Exact.bind, Exact.ret,
        within;
      cbn -[Z.add]; repeat split; lra.
  - exists Samples.dark_fine, Sources.eager. split; [apply fair_eager |].
    vm_compute. reflexivity.
Qed.

Lemma scenario_ranges_without_features_witness :
  within (temp_range (get scenarios "humid" normal))
    (ambient_temperature
       (fst (generate_environmental_parameters None "humid" Sources.calm))).
Proof.
  pose proof (scenario_ranges_without_features "humid" Sources.calm fair_calm)
    as H.
  cbv zeta in H. exact (proj1 (proj1 H)).
Defined.

End EnvironmentGenerator.

(** ** The temperature statistics *)

Section TemperatureStatistics.

Import Exact Statistics.
Local Open Scope Q_scope.

Lemma minimum_le_start (l : list Q) (x : Q) : minimum x l <= x.
Proof.
  unfold minimum. revert x. induction l as [| y l IH]; intro x; cbn.
  - apply Qle_refl.
  - destruct (Qltb y x) eqn:E.
    + apply Qltb_true in E. specialize (IH y). lra.
    + apply IH.
Qed.

Lemma minimum_le_cells (l : list Q) (x c : Q) : In c l -> minimum x l <= c.
Proof.
  unfold minimum. revert x. induction l as [| y l IH]; intros x Hin;
    [contradiction |].
  cbn. destruct Hin as [<- | Hin]; [| apply IH, Hin].
  destruct (Qltb y x) eqn:E.
  - apply (minimum_le_start l y).
  - apply Qltb_false in E. pose proof (minimum_le_start l x). unfold minimum in *.
    lra.
Qed.

Lemma minimum_is_cell (l : list Q) (x : Q) : In (minimum x l) (x :: l).
Proof.
  unfold minimum. revert x. induction l as [| y l IH]; intro x; cbn;
    [auto |].
  destruct (Qltb y x); [right; apply IH |].
  destruct (IH x) as [H | H]; [left; exact H | right; right; exact H].
Qed.

Lemma start_le_maximum (l : list Q) (x : Q) : x <= maximum x l.
Proof.
  unfold maximum. revert x. induction l as [| y l IH]; intro x; cbn.
  - apply Qle_refl.
  - destruct (Qltb x y) eqn:E.
    + apply Qltb_true in E. specialize (IH y). lra.
    + apply IH.
Qed.

Lemma cells_le_maximum (l : list Q) (x c : Q) : In c l -> c <= maximum x l.
Proof.
  unfold maximum. revert x. induction l as [| y l IH]; intros x Hin;
    [contradiction |].
  cbn. destruct Hin as [<- | Hin]; [| apply IH, Hin].
  destruct (Qltb x y) eqn:E.
  - apply (start_le_maximum l y).
  - apply Qltb_false in E. pose proof (start_le_maximum l x).
    unfold maximum in *. lra.
Qed.

Lemma maximum_is_cell (l : list Q) (x : Q) : In (maximum x l) (x :: l).
Proof.
  unfold maximum. revert x. induction l as [| y l IH]; intro x; cbn;
    [auto |].
  destruct (Qltb x y); [right; apply IH |].
  destruct (IH x) as [H | H]; [left; exact H | right; right; exact H].
Qed.

Lemma count_above_range (threshold : Q) (l : list Q) :
  (0 <= count_above threshold l <= Z.of_nat (List.length l))%Z.
Proof.
  unfold count_above. pose proof (filter_length_le (fun c => Qltb threshold c) l).
  lia.
Qed.

Lemma count_above_positive (threshold : Q) (l : list Q) :
  (0 < count_above threshold l)%Z <-> exists c, In c l /\ threshold < c.
Proof.
  unfold count_above. split.
  - intro H.
    destruct (filter (fun c => Qltb threshold c) l) as [| c f] eqn:E;
      [cbn in H; lia |].
    assert (Hin : In c (filter (fun c => Qltb threshold c) l))
      by (rewrite E; now left).
    apply filter_In in Hin as [Hin Hc]. exists c. split; [exact Hin |].
    now apply Qltb_true.
  - intros (c & Hin & Hc).
    assert (Hf : In c (filter (fun c => Qltb threshold c) l)).
    { apply filter_In. split; [exact Hin |].
      destruct (Qltb threshold c) eqn:E; [reflexivity |].
      apply Qltb_false in E. lra. }
    destruct (filter (fun c => Qltb threshold c) l); [contradiction |].
    cbn. lia.
Qed.

Lemma size_positive (m : array) (x : Q) (l : list Q) :
  cells m = x :: l -> 0 < inject_Z (size m).
Proof.
  intro E. unfold size. rewrite E. cbn [List.length].
  rewrite Nat2Z.inj_succ. unfold Z.succ. rewrite inject_Z_plus.
  pose proof (Nat2Z.is_nonneg (List.length l)) as H.
  rewrite Zle_Qle in H.
  change (inject_Z 0) with 0 in H. change (inject_Z 1) with 1. lra.
Qed.

Lemma extremes_bound_cells (x : Q) (l : list Q) (c : Q) :
  In c (x :: l) -> minimum x l <= c /\ c <= maximum x l.
Proof.
  intros [<- | Hin].
  - split; [apply minimum_le_start | apply start_le_maximum].
  - split; [now apply minimum_le_cells | now apply cells_le_maximum].
Qed.

(** X16: on every temperature map with at least one cell, whatever
    [np.mean] and [np.std] return and however the threshold is rounded, the
    statistics are built; the minimum and the maximum are cells of the map
    that bound every cell; the critical area is a percentage and is
    positive exactly when the maximum exceeds 80; the hot spot count is
    between 0 and the number of cells. *)
Theorem statistics_consistent (r : rounding) (np_mean np_std : array -> Q)
    (temperature_map : array) :
  cells temperature_map <> [] ->
  exists s,
    statistics r np_mean np_std temperature_map = Some s
    /\ In (min_temp s) (cells temperature_map)
    /\ In (max_temp s) (cells temperature_map)
    /\ (forall c, In c (cells temperature_map) ->
          min_temp s <= c /\ c <= max_temp s)
    /\ min_temp s <= max_temp s
    /\ 0 <= critical_area_percentage s /\ critical_area_percentage s <= 100
    /\ (0 < critical_area_percentage s <-> 80 < max_temp s)
    /\ (0 <= hot_spot_count s <= size temperature_map)%Z.
Proof.
  intro Hne. unfold statistics.
  destruct (cells temperature_map) as [| x l] eqn:E; [contradiction |].
  eexists. split; [reflexivity |]. cbn [min_temp max_temp avg_temp
    hot_spot_count critical_area_percentage].
  pose proof (size_positive temperature_map x l E) as Hn.
  pose proof (count_above_range 80 (x :: l)) as Hc.
  assert (En : Z.of_nat (List.length (x :: l)) = size temperature_map)
    by (unfold size; now rewrite E).
  rewrite En in Hc.
  assert (Hq : 0 <= inject_Z (count_above 80 (x :: l))
               /\ inject_Z (count_above 80 (x :: l))
                  <= inject_Z (size temperature_map)).
  { split; [change 0 with (inject_Z 0) |]; rewrite <- Zle_Qle; lia. }
  destruct Hq as [Hq0 Hq1].
  assert (Hfrac : 0 <= inject_Z (count_above 80 (x :: l))
                       / inject_Z (size temperature_map)
                  /\ inject_Z (count_above 80 (x :: l))
                       / inject_Z (size temperature_map) <= 1).
  { split.
    - apply Qle_shift_div_l; [exact Hn | lra].
    - apply Qle_shift_div_r; [exact Hn | lra]. }
  repeat split.
  - apply minimum_is_cell.
  - apply maximum_is_cell.
  - now apply extremes_bound_cells.
  - now apply extremes_bound_cells.
  - pose proof (minimum_le_start l x). pose proof (start_le_maximum l x). lra.
  - lra.
  - lra.
  - intro Hpos.
    assert (H0 : (0 < count_above 80 (x :: l))%Z).
    { destruct (Z.eq_dec (count_above 80 (x :: l)) 0) as [Hz | Hz]; [| lia].
      rewrite Hz in Hpos. unfold Qdiv in Hpos.
      change (inject_Z 0) with 0 in Hpos. rewrite Qmult_0_l in Hpos. lra. }
    apply count_above_positive in H0 as (c & Hin & Hgt).
    pose proof (extremes_bound_cells x l c Hin). lra.
  - intro Hmax.
    assert (H0 : (0 < count_above 80 (x :: l))%Z).
    { apply count_above_positive. exists (maximum x l).
      split; [apply maximum_is_cell | exact Hmax]. }
    assert (H1 : 0 < inject_Z (count_above 80 (x :: l))).
    { change 0 with (inject_Z 0). rewrite <- Zlt_Qlt. exact H0. }
    assert (H2 : 0 < inject_Z (count_above 80 (x :: l))
                     / inject_Z (size temperature_map)).
    { apply Qlt_shift_div_l; [exact Hn | lra]. }
    lra.
  - apply count_above_range.
  - rewrite <- En. apply count_above_range.
Qed.

Lemma statistics_consistent_witness :
  exists s,
    statistics ieee (fun _ => 50) (fun _ => 29) [[20; 95]; [30; 55]] = Some s
    /\ min_temp s == 20 /\ max_temp s == 95
    /\ critical_area_percentage s == 25.
Proof.
  destruct (statistics_consistent ieee (fun _ => 50) (fun _ => 29)
              [[20; 95]; [30; 55]] ltac:(discriminate)) as (s & Hs & _).
  exists s. split; [exact Hs |].
  vm_compute in Hs. injection Hs as <-. repeat split; reflexivity.
Defined.

(** A map without cells has no statistics ([min] raises on it), and only
    such a map. *)
Lemma statistics_fail_on_empty_only (r : rounding)
    (np_mean np_std : array -> Q) (temperature_map : array) :
  statistics r np_mean np_std temperature_map = None
  <-> cells temperature_map = [].
Proof.
  unfold statistics. destruct (cells temperature_map); split;
    intro; congruence.
Qed.




End TemperatureStatistics.

(** ** The conversion of NumPy values *)

Section NumpyConversion.

Import Values.

(** Induction on an array through its sub-arrays. *)
Lemma ndarray_nested_ind (P : ndarray -> Prop) :
  (forall i, P (Item i)) ->
  (forall l, Forall P l -> P (Axis l)) ->
  forall a, P a.
Proof.
  intros HItem HAxis. fix IH 1. intros [i | l].
  - apply HItem.
  - apply HAxis. induction l as [| a l IHl]; constructor;
      [apply IH | exact IHl].
Qed.

(** Induction on a value through the items of a list or a tuple and the
    keys and values of a dict. *)
Lemma value_nested_ind (P : value -> Prop) :
  P PyNone ->
  (forall b, P (PyBool b)) ->
  (forall n, P (PyInt n)) ->
  (forall x, P (PyFloat x)) ->
  (forall s, P (PyStr s)) ->
  (forall l, Forall P l -> P (PyList l)) ->
  (forall l, Forall P l -> P (PyTuple l)) ->
  (forall d, Forall (fun entry => P (fst entry) /\ P (snd entry)) d ->
             P (PyDict d)) ->
  (forall n, P (NpInteger n)) ->
  (forall x, P (NpFloating x)) ->
  (forall b, P (NpBool b)) ->
  (forall a, P (NpArray a)) ->
  forall v, P v.
Proof.
  intros HNone HBool HInt HFloat HStr HList HTuple HDict HI HF HB HA.
  fix IH 1. intros [| b | n | x | s | l | l | d | n | x | b | a];
    [exact HNone | apply HBool | apply HInt | apply HFloat | apply HStr
    | | | | apply HI | apply HF | apply HB | apply HA].
  - apply HList. induction l as [| v l IHl]; constructor;
      [apply IH | exact IHl].
  - apply HTuple. induction l as [| v l IHl]; constructor;
      [apply IH | exact IHl].
  - apply HDict. induction d as [| [k v] d IHd]; constructor;
      [split; apply IH | exact IHd].
Qed.

Lemma tolist_numpy_free (a : ndarray) : numpy_free (tolist a) = true.
Proof.
  induction a as [[n | x | b] | l IH] using ndarray_nested_ind;
    try reflexivity.
  cbn. induction IH as [| a l Ha _ IHl]; [reflexivity |].
  cbn. now rewrite Ha, IHl.
Qed.

(** X19: a value without NumPy values inside is returned as it is. *)
Theorem convert_numpy_types_unchanged (v : value) :
  numpy_free v = true -> convert_numpy_types v = v.
Proof.
  induction v as [| b | n | x | s | l IH | l IH | d IH | n | x | b | a]
    using value_nested_ind; intro Hfree; try reflexivity;
    try discriminate Hfree.
  - cbn in *. f_equal.
    induction IH as [| v l Hv _ IHl]; [reflexivity |].
    cbn in *. apply andb_prop in Hfree as [H1 H2].
    now rewrite Hv, IHl.
  - cbn in *. f_equal.
    induction IH as [| [k v] d [_ Hv] _ IHd]; [reflexivity |].
    cbn in *. apply andb_prop in Hfree as [H1 H2].
    apply andb_prop in H1 as [_ H1].
    now rewrite Hv, IHd.
Qed.

Lemma convert_numpy_types_unchanged_witness :
  convert_numpy_types Sources.native_result = Sources.native_result.
Proof.
  apply (convert_numpy_types_unchanged Sources.native_result). reflexivity.
Defined.

(** X20: converting twice is converting once. *)
Theorem convert_numpy_types_idempotent (v : value) :
  convert_numpy_types (convert_numpy_types v) = convert_numpy_types v.
Proof.
  induction v as [| b | n | x | s | l IH | l IH | d IH | n | x | b | a]
    using value_nested_ind; try reflexivity.
  - cbn. f_equal.
    induction IH as [| v l Hv _ IHl]; [reflexivity |].
    cbn. now rewrite Hv, IHl.
  - cbn. f_equal.
    induction IH as [| [k v] d [_ Hv] _ IHd]; [reflexivity |].
    cbn in *. now rewrite Hv, IHd.
  - cbn. apply convert_numpy_types_unchanged, tolist_numpy_free.
Qed.

(** X21: the result is free of NumPy values exactly when the argument has
    none out of the conversion's reach: no [np.bool_] in a visited place,
    and no NumPy value inside a tuple or a dict key. *)
Theorem convert_numpy_types_leaves_the_unreached (v : value) :
  numpy_free (convert_numpy_types v) = negb (out_of_reach v).
Proof.
  induction v as [| b | n | x | s | l IH | l IH | d IH | n | x | b | a]
    using value_nested_ind; try reflexivity.
  - cbn. induction IH as [| v l Hv _ IHl]; [reflexivity |].
    cbn. rewrite Hv, IHl. now rewrite negb_orb.
  - cbn. now rewrite negb_involutive.
  - cbn. induction IH as [| [k v] d [_ Hv] _ IHd]; [reflexivity |].
    cbn in *. rewrite Hv, IHd. rewrite !negb_orb. now rewrite negb_involutive.
  - apply tolist_numpy_free.
Qed.

End NumpyConversion.

(** ** The batch score *)

Section BatchScore.

Local Open Scope float_scope.

(** X22: an entry of the batch always gets its combined score: the chemical
    part is between 10 and 70, since the CPT is always scored and the other
    indices never are, the thermal part is between 0 and 90, and the score
    is exactly half their sum, so between 5 and 80. *)
Theorem batch_score_range {map : Type}
    (moisture volatile_matter ash fixed_carbon : float)
    (ambient_temperature wind_speed : float)
    (temperature_map : map) (temp_stats : Thermal.temp_stats) :
  exists (c t : Z) (x : float) (q : Q),
    Batch.combined_risk_score moisture volatile_matter ash fixed_carbon
      ambient_temperature wind_speed temperature_map temp_stats = Some x
    /\ Analyzer.risk_score
         (Analyzer.risk_assessment
            (Analyzer.crossing_point_temperature moisture volatile_matter ash
               fixed_carbon)
            None None None ambient_temperature wind_speed) = c
    /\ Thermal.thermal_risk_score
         (Thermal.assess_thermal_risk temperature_map temp_stats) = t
    /\ (10 <= c <= 70)%Z /\ (0 <= t <= 90)%Z
    /\ PyFloat.to_Q x = Some q
    /\ (q == inject_Z (c + t) / 2)%Q
    /\ (5 <= q)%Q /\ (q <= 80)%Q.
Proof.
  unfold Batch.combined_risk_score. cbv zeta.
  pose proof (crossing_point_temperature_total moisture volatile_matter ash
                fixed_carbon) as (cpt & Hcpt & Hlo).
  rewrite Hcpt. pose proof (at_least_120_truthy cpt Hlo) as Htruthy.
  assert (Ht : (0 <= Thermal.thermal_risk_score
                       (Thermal.assess_thermal_risk temperature_map temp_stats)
                <= 90)%Z).
  { unfold Thermal.assess_thermal_risk. cbn [Thermal.thermal_risk_score].
    rewrite thermal_tally_sum.
    pose proof (thermal_band_sum_range temp_stats). lia. }
  assert (Hc : (10 <= Analyzer.risk_score
                        (Analyzer.risk_assessment (Some cpt) None None None
                           ambient_temperature wind_speed) <= 70)%Z).
  { rewrite risk_score_drops_zero. unfold Stated.chemical_score.
    rewrite present_drop_zero, Htruthy.
    unfold Stated.cpt_points, Stated.environment_points. cbn.
    repeat match goal with
    | |- context [if ?b then _ else _] => destruct b
    end; lia. }
  revert Hc Ht.
  generalize (Analyzer.risk_score
                (Analyzer.risk_assessment (Some cpt) None None None
                   ambient_temperature wind_speed)).
  generalize (Thermal.thermal_risk_score
                (Thermal.assess_thermal_risk temperature_map temp_stats)).
  intros t c Hc Ht.
  assert (Hs : Checks.halves_exactly (c + t) = true)
    by (apply halves_exactly_range; lia).
  unfold Checks.halves_exactly in Hs.
  destruct (PyFloat.int_truediv (c + t) 2) as [x |]; [| discriminate Hs].
  destruct (PyFloat.to_Q x) as [q |] eqn:Hq; [| discriminate Hs].
  apply andb_prop in Hs as [Hhalf _]. apply Qeq_bool_iff in Hhalf.
  exists c, t, x, q. repeat split; try lia; try assumption.
  - rewrite Hhalf. apply Qle_shift_div_l; [reflexivity |].
    change (5 * 2)%Q with (inject_Z 10). rewrite <- Zle_Qle. lia.
  - rewrite Hhalf. apply Qle_shift_div_r; [reflexivity |].
    change (80 * 2)%Q with (inject_Z 160). rewrite <- Zle_Qle. lia.
Qed.

End BatchScore.
